(** * trim-branches: a shallow embedding of [index.js]

    The program is a command-line script around three collaborators: the
    [simple-git] adapter, the [inquirer] prompt and the JavaScript runtime
    (console, clock, [Date]).  The class [BranchPruner] is embedded method by
    method.  Pure helpers become functions; the asynchronous methods become
    computations in a small monad that threads the state of the outside world
    and the trace of everything the script asked of its collaborators, and
    that distinguishes a normal return, a thrown error and [process.exit]. *)

From Stdlib Require Import ZArith List String Ascii Bool Lia DecimalString.
Import ListNotations.
Open Scope string_scope.
Open Scope Z_scope.

(** ** JavaScript strings

    A string is the sequence of its code units; [ascii] stands for the code
    units U+0000 to U+00FF.  The methods below are the ones [index.js] calls. *)
Module JsString.

(** [s.startsWith(t)], used by the other methods. *)
Fixpoint startsWith (s t : string) : bool :=
  match t, s with
  | EmptyString, _ => true
  | String _ _, EmptyString => false
  | String b t', String a s' => Ascii.eqb a b && startsWith s' t'
  end.

(** [s.includes(t)]: [t] occurs at some position of [s]. *)
Fixpoint includes (s t : string) : bool :=
  startsWith s t ||
  match s with
  | EmptyString => false
  | String _ s' => includes s' t
  end.

(** [s.endsWith(t)]: [t] is [s] or a suffix of the tail of [s]. *)
Fixpoint endsWith (s t : string) : bool :=
  String.eqb s t ||
  match s with
  | EmptyString => false
  | String _ s' => endsWith s' t
  end.

(** The string without its first [n] code units. *)
Fixpoint drop (n : nat) (s : string) : string :=
  match n, s with
  | O, _ => s
  | S _, EmptyString => EmptyString
  | S n', String _ s' => drop n' s'
  end.

(** [s.replace(pat, rep)] with a string pattern: only the first occurrence
    is replaced.  ([rep] is used literally; the script's replacement is the
    empty string.) *)
Fixpoint replace (s pat rep : string) : string :=
  if startsWith s pat then rep ++ drop (String.length pat) s
  else match s with
       | EmptyString => EmptyString
       | String c s' => String c (replace s' pat rep)
       end.

(** White space and line terminators among the code units below U+0100:
    TAB, LF, VT, FF, CR, SPACE and NBSP. *)
Definition isWhiteSpace (c : ascii) : bool :=
  let n := nat_of_ascii c in
  (Nat.leb 9 n && Nat.leb n 13) || Nat.eqb n 32 || Nat.eqb n 160.

Fixpoint trimStart (s : string) : string :=
  match s with
  | EmptyString => EmptyString
  | String c s' => if isWhiteSpace c then trimStart s' else s
  end.

(** Drops the trailing white space: a white-space code unit is kept only
    when something remains after it. *)
Fixpoint trimEnd (s : string) : string :=
  match s with
  | EmptyString => EmptyString
  | String c s' =>
      match trimEnd s' with
      | EmptyString => if isWhiteSpace c then EmptyString else String c EmptyString
      | r => String c r
      end
  end.

(** [s.trim()]. *)
Definition trim (s : string) : string := trimEnd (trimStart s).

(** [s.substring(0, n)]. *)
Definition substring0 (n : nat) (s : string) : string := String.substring 0 n s.

End JsString.

(** ** JavaScript numbers

    The script's numbers are counters and millisecond time values: integers,
    or [NaN] for the time value of an invalid [Date].  Integer arithmetic is
    exact in this range (for time differences below 2^26 days, the quotient
    by the length of a day is rounded to the same floor). *)
Module JsNumber.

Inductive number : Type :=
| Num (z : Z)
| NaN.

(** [a - b]. *)
Definition sub (a b : number) : number :=
  match a, b with
  | Num x, Num y => Num (x - y)
  | _, _ => NaN
  end.

(** [Math.floor(a / d)] for a positive integer constant [d]. *)
Definition floorDiv (a : number) (d : Z) : number :=
  match a with
  | Num x => Num (x / d)
  | NaN => NaN
  end.

(** [a === k] for an integer constant [k]; false on [NaN]. *)
Definition strictEq (a : number) (k : Z) : bool :=
  match a with
  | Num x => x =? k
  | NaN => false
  end.

(** [a < k] for an integer constant [k]; false on [NaN]. *)
Definition lt (a : number) (k : Z) : bool :=
  match a with
  | Num x => x <? k
  | NaN => false
  end.

(** Decimal rendering of an integer, as a template literal shows it. *)
Definition showZ (z : Z) : string := NilZero.string_of_int (Z.to_int z).

(** [`${a}`]. *)
Definition toString (a : number) : string :=
  match a with
  | Num x => showZ x
  | NaN => "NaN"
  end.

End JsNumber.

Import JsString JsNumber.

(** The result of awaiting a collaborator's promise. *)
Record Error : Type := mkError { message : string }.

Inductive settled (A : Type) : Type :=
| Resolved (a : A)
| Rejected (e : Error).
Arguments Resolved {A} a.
Arguments Rejected {A} e.

(** ** [getRelativeDate]

    [parse] is the runtime's date parser: the time value of
    [new Date(dateString)], [NaN] for a string it cannot read.  [now] is the
    time value of [new Date()].  Nothing in the [try] block raises on a
    string argument, so the body is written as a computation that can only
    resolve, wrapped in the source's handler. *)
Definition msPerDay : Z := 1000 * 60 * 60 * 24.

Definition relativeDateBody (parse : string -> number) (now : Z)
    (dateString : string) : settled string :=
  let date := parse dateString in
  let diffMs := sub (Num now) date in
  let diffDays := floorDiv diffMs msPerDay in
  if strictEq diffDays 0 then Resolved "today"
  else if strictEq diffDays 1 then Resolved "yesterday"
  else if lt diffDays 7 then Resolved (toString diffDays ++ " days ago")
  else if lt diffDays 30 then Resolved (toString (floorDiv diffDays 7) ++ " weeks ago")
  else if lt diffDays 365 then Resolved (toString (floorDiv diffDays 30) ++ " months ago")
  else Resolved (toString (floorDiv diffDays 365) ++ " years ago").

Definition getRelativeDate (parse : string -> number) (now : Z)
    (dateString : string) : string :=
  match relativeDateBody parse now dateString with
  | Resolved s => s
  | Rejected _ => "unknown"
  end.

(** ** The outside world

    What the script sends to the console and what it asks of [simple-git]
    and [inquirer] is recorded as a trace of events, in the order of the
    calls. *)
Inductive color : Type := red | yellow | green | blue.

(** The glyphs passed to [this.log]. *)
Inductive icon : Type :=
| rocket | satellite | crossMark | clipboard | magnifier | warning
| wastebasket | checkMark | broom | stopButton | party | barChart | bulb.

(** The question object handed to [inquirer.prompt]. *)
Record question : Type := mkQuestion {
  qtype : string;
  qname : string;
  qmessage : string;
  qdefault : bool
}.

(** [log.latest] of [git.log]: the fields the script reads. *)
Module Commit.
Record t : Type := mk {
  hash : string;
  message : string;
  author_name : string;
  date : string
}.
End Commit.

(** The object [getBranchInfo] returns. *)
Module Info.
Record t : Type := mk {
  hash : string;
  message : string;
  author : string;
  date : string
}.
End Info.

Inductive event : Type :=
| Log (c : color) (i : icon) (text : string)
    (* this.log(color, icon, message) *)
| Print (c : option color) (text : string)
    (* console.log(text), through chalk when a colour is given *)
| Bullet (branch : string)
    (* the blue, indented bullet line of a branch *)
| GitCheckIsRepo
| GitFetch (remote : string) (options : list string)
| GitBranch (args : list string)
| GitLog (from : string) (maxCount : Z)
| GitPush (remote branch : string) (options : list string)
| GitRemote (args : list string)
| Prompt (q : question).

(** The collaborators, as transitions of an abstract world [W].  Every
    promise either resolves or rejects.  [git_checkIsRepo] resolves to the
    answer of the check, a boolean: whether the working directory is inside
    a repository.  [git_branch] gives the [all] field
    of the branch summary and [git_log] the [latest] field of the log.
    [readAnswer] is what the user types at a confirm prompt: [None] when the
    line is left empty. *)
Record Collaborators (W : Type) : Type := mkCollaborators {
  git_checkIsRepo : W -> settled bool * W;
  git_fetch : string -> list string -> W -> settled unit * W;
  git_branch : list string -> W -> settled (list string) * W;
  git_log : string -> Z -> W -> settled (option Commit.t) * W;
  git_push : string -> string -> list string -> W -> settled unit * W;
  git_remote : list string -> W -> settled unit * W;
  readAnswer : W -> settled (option bool) * W;
  clock : W -> Z;
  parseDate : string -> number
}.
Arguments git_checkIsRepo {W} _ _.
Arguments git_fetch {W} _ _ _ _.
Arguments git_branch {W} _ _ _.
Arguments git_log {W} _ _ _ _.
Arguments git_push {W} _ _ _ _ _.
Arguments git_remote {W} _ _ _.
Arguments readAnswer {W} _ _.
Arguments clock {W} _ _.
Arguments parseDate {W} _ _.

(** ** The monad of the script

    A computation starts in a world and ends in one of three ways: it
    returns a value, it throws, or it calls [process.exit].  It also yields
    the events it produced. *)
Inductive outcome (A : Type) : Type :=
| Ret (a : A)
| Throw (e : Error)
| Exit (code : Z).
Arguments Ret {A} a.
Arguments Throw {A} e.
Arguments Exit {A} code.

Definition M (W A : Type) : Type := W -> outcome A * W * list event.

Definition ret {W A} (a : A) : M W A := fun w => (Ret a, w, []).

Definition bind {W A B} (m : M W A) (f : A -> M W B) : M W B :=
  fun w =>
    match m w with
    | (Ret a, w1, t1) => let '(r, w2, t2) := f a w1 in (r, w2, (t1 ++ t2)%list)
    | (Throw e, w1, t1) => (Throw e, w1, t1)
    | (Exit c, w1, t1) => (Exit c, w1, t1)
    end.

Notation "x <- m ;; k" := (bind m (fun x => k))
  (at level 61, m at next level, right associativity).
Notation "m ;; k" := (bind m (fun _ => k))
  (at level 61, right associativity).

(** [throw error]. *)
Definition throw {W A} (e : Error) : M W A := fun w => (Throw e, w, []).

(** [process.exit(code)]: nothing after it runs, no handler sees it. *)
Definition processExit {W A} (code : Z) : M W A := fun w => (Exit code, w, []).

(** [try { m } catch (error) { h error }]. *)
Definition tryCatch {W A} (m : M W A) (h : Error -> M W A) : M W A :=
  fun w =>
    match m w with
    | (Throw e, w1, t1) => let '(r, w2, t2) := h e w1 in (r, w2, (t1 ++ t2)%list)
    | other => other
    end.

(** One event with no answer (console output). *)
Definition emit {W} (ev : event) : M W unit := fun w => (Ret tt, w, [ev]).

(** [await] on a collaborator's promise: the call is recorded, a rejection
    is thrown. *)
Definition await {W A} (ev : event) (op : W -> settled A * W) : M W A :=
  fun w =>
    match op w with
    | (Resolved a, w1) => (Ret a, w1, [ev])
    | (Rejected e, w1) => (Throw e, w1, [ev])
    end.

(** The exit status of the process when the top-level computation ends:
    0 after a normal return, the given code after [process.exit], 1 after an
    error that nothing caught. *)
Definition exitStatus {A} (r : outcome A) : Z :=
  match r with
  | Ret _ => 0
  | Throw _ => 1
  | Exit c => c
  end.

(** ** The class [BranchPruner] *)

(** The [options] object of the constructor; a field may be absent. *)
Module Options.
Record t : Type := mk {
  mainBranch : option string;
  dryRun : option bool;
  force : option bool;
  keepDevelop : option bool
}.
End Options.

Record BranchPruner : Type := mkBranchPruner {
  mainBranch : string;
  dryRun : bool;
  force : bool;
  keepDevelop : bool
}.

(** [constructor(options = {})]: [||] falls back on an absent or falsy
    field, [!== false] is false only for an explicit [false]. *)
Definition constructor (options : Options.t) : BranchPruner :=
  {| mainBranch := match Options.mainBranch options with
                   | Some (String c s) => String c s
                   | _ => "main"
                   end;
     dryRun := match Options.dryRun options with Some b => b | None => false end;
     force := match Options.force options with Some b => b | None => false end;
     keepDevelop := match Options.keepDevelop options with
                    | Some false => false
                    | _ => true
                    end |}.

(** What [deleteBranches] returns. *)
Record DeleteResult : Type := mkDeleteResult {
  deletedCount : Z;
  failedCount : Z
}.

(** The sentinel object of [getBranchInfo]. *)
Definition unknownInfo : Info.t :=
  {| Info.hash := "unknown"; Info.message := "unknown";
     Info.author := "unknown"; Info.date := "unknown" |}.

(** [array.includes(x)] on an array of strings. *)
Definition arrayIncludes (l : list string) (x : string) : bool :=
  existsb (String.eqb x) l.

(** The value of [getRemainingBranchCount]: a number, or the string
    ['unknown']. *)
Definition showRemaining (r : Z + string) : string :=
  match r with
  | inl n => showZ n
  | inr s => s
  end.

Section Methods.

Context {W : Type}.
Variable env : Collaborators W.

Definition log (c : color) (i : icon) (text : string) : M W unit :=
  emit (Log c i text).

Definition checkGitRepository (this : BranchPruner) : M W unit :=
  tryCatch
    (_ <- await GitCheckIsRepo (git_checkIsRepo env);;
     ret tt)
    (fun error =>
       log red crossMark "Error: Not in a git repository";;
       processExit 1).

Definition fetchLatest (this : BranchPruner) : M W unit :=
  log yellow satellite "Fetching latest changes from origin...";;
  tryCatch
    (await (GitFetch "origin" ["--prune"]) (git_fetch env "origin" ["--prune"]))
    (fun error =>
       log red crossMark "Error fetching from origin";;
       throw error).

(** [branches.all.slice(0, 10).forEach(branch => console.log(...))]. *)
Fixpoint printBranches (branches : list string) : M W unit :=
  match branches with
  | [] => ret tt
  | branch :: rest => emit (Print None ("  " ++ branch));; printBranches rest
  end.

Definition checkMainBranch (this : BranchPruner) : M W unit :=
  tryCatch
    (branches <- await (GitBranch ["-r"]) (git_branch env ["-r"]);;
     let mainBranchRef := "origin/" ++ mainBranch this in
     if negb (arrayIncludes branches mainBranchRef) then
       log red crossMark
         ("Error: Main branch 'origin/" ++ mainBranch this ++ "' not found");;
       log yellow clipboard "Available branches:";;
       printBranches (firstn 10 branches);;
       processExit 1
     else ret tt)
    (fun error =>
       log red crossMark "Error checking main branch";;
       throw error).

(** The [for] loop of [getMergedBranches], with [filteredBranches] as the
    accumulator. *)
Fixpoint keepLoop (this : BranchPruner) (mergedBranches filteredBranches : list string)
    : M W (list string) :=
  match mergedBranches with
  | [] => ret filteredBranches
  | branch :: rest =>
      if String.eqb branch (mainBranch this) then
        keepLoop this rest filteredBranches
      else if keepDevelop this && String.eqb branch "develop" then
        log yellow warning
          "Keeping 'develop' branch (use --no-keep-develop to remove)";;
        keepLoop this rest filteredBranches
      else if String.eqb branch "HEAD" then
        keepLoop this rest filteredBranches
      else
        keepLoop this rest (filteredBranches ++ [branch])%list
  end.

(** The first statement of the [try] block: two filters and a map. *)
Definition mergedNames (this : BranchPruner) (all : list string) : list string :=
  map (fun branch => trim (replace branch "origin/" ""))
    (filter (fun branch => negb (endsWith branch ("origin/" ++ mainBranch this)))
       (filter (fun branch => negb (includes branch " -> ")) all)).

Definition getMergedBranches (this : BranchPruner) : M W (list string) :=
  log yellow magnifier "Finding merged branches...";;
  tryCatch
    (let args := ["-r"; "--merged"; "origin/" ++ mainBranch this] in
     all <- await (GitBranch args) (git_branch env args);;
     let mergedBranches := mergedNames this all in
     keepLoop this mergedBranches [])
    (fun error =>
       log red crossMark "Error finding merged branches";;
       throw error).

Definition getBranchInfo (this : BranchPruner) (branch : string) : M W Info.t :=
  tryCatch
    (latest <- await (GitLog ("origin/" ++ branch) 1)
                 (git_log env ("origin/" ++ branch) 1);;
     match latest with
     | Some c =>
         ret {| Info.hash := substring0 7 (Commit.hash c);
                Info.message := Commit.message c;
                Info.author := Commit.author_name c;
                Info.date := Commit.date c |}
     | None => ret unknownInfo
     end)
    (fun error => ret unknownInfo).

(** [new Date()] inside [getRelativeDate] reads the clock of the world. *)
Definition relativeDateNow (dateString : string) : M W string :=
  fun w => (Ret (getRelativeDate (parseDate env) (clock env w) dateString), w, []).

Fixpoint displayLoop (this : BranchPruner) (branches : list string) : M W unit :=
  match branches with
  | [] => ret tt
  | branch :: rest =>
      info <- getBranchInfo this branch;;
      relativeDate <- relativeDateNow (Info.date info);;
      emit (Bullet branch);;
      emit (Print None ("    Last commit: " ++ Info.hash info ++ " " ++ Info.message info));;
      emit (Print None ("    Author: " ++ Info.author info ++ " (" ++ relativeDate ++ ")"));;
      emit (Print None "");;
      displayLoop this rest
  end.

Definition displayBranches (this : BranchPruner) (branches : list string) : M W unit :=
  log yellow clipboard "Found the following merged branches:";;
  displayLoop this branches.

(** [inquirer.prompt] with one question of type [confirm]: the prompt is
    shown, the user's line is read, and an empty line stands for the
    question's [default]. *)
Definition inquirerPrompt (q : question) : M W bool :=
  input <- await (Prompt q) (readAnswer env);;
  match input with
  | Some answer => ret answer
  | None => ret (qdefault q)
  end.

Definition confirmQuestion : question :=
  {| qtype := "confirm";
     qname := "confirmed";
     qmessage := "Are you sure you want to continue?";
     qdefault := false |}.

Definition confirmDeletion (this : BranchPruner) (branches : list string) : M W bool :=
  if force this then ret true
  else
    emit (Print None "");;
    log yellow warning "This will permanently delete the above branches from origin!";;
    confirmed <- inquirerPrompt confirmQuestion;;
    ret confirmed.

(** The [for] loop of [deleteBranches]; the two counters are the loop's
    state. *)
Fixpoint deleteLoop (this : BranchPruner) (branches : list string)
    (counts : DeleteResult) : M W DeleteResult :=
  match branches with
  | [] => ret counts
  | branch :: rest =>
      counts' <-
        tryCatch
          (emit (Print (Some yellow) ("Deleting origin/" ++ branch ++ "..."));;
           await (GitPush "origin" branch ["--delete"])
             (git_push env "origin" branch ["--delete"]);;
           log green checkMark ("Deleted origin/" ++ branch);;
           ret {| deletedCount := deletedCount counts + 1;
                  failedCount := failedCount counts |})
          (fun error =>
             log red crossMark ("Failed to delete origin/" ++ branch);;
             ret {| deletedCount := deletedCount counts;
                    failedCount := failedCount counts + 1 |});;
      deleteLoop this rest counts'
  end.

Definition deleteBranches (this : BranchPruner) (branches : list string)
    : M W DeleteResult :=
  log red wastebasket "Deleting merged branches from origin...";;
  deleteLoop this branches {| deletedCount := 0; failedCount := 0 |}.

Definition cleanupLocal (this : BranchPruner) : M W unit :=
  log yellow broom "Cleaning up local tracking branches...";;
  tryCatch
    (await (GitRemote ["prune"; "origin"]) (git_remote env ["prune"; "origin"]))
    (fun error =>
       log yellow warning "Warning: Could not prune local tracking branches").

Definition getRemainingBranchCount (this : BranchPruner) : M W (Z + string) :=
  tryCatch
    (branches <- await (GitBranch ["-r"]) (git_branch env ["-r"]);;
     ret (inl (Z.of_nat
                 (List.length
                    (filter (fun branch => negb (includes branch " -> ")) branches)))))
    (fun error => ret (inr "unknown")).

Definition run (this : BranchPruner) : M W unit :=
  tryCatch
    (log blue rocket "Starting merged branch cleanup...";;
     checkGitRepository this;;
     fetchLatest this;;
     checkMainBranch this;;
     branches <- getMergedBranches this;;
     if Nat.eqb (List.length branches) 0 then
       log green checkMark "No merged branches found to delete"
     else
       displayBranches this branches;;
       if dryRun this then
         log yellow magnifier "DRY RUN: The above branches would be deleted from origin";;
         log yellow bulb "Run without --dry-run to actually delete them"
       else
         confirmed <- confirmDeletion this branches;;
         if negb confirmed then
           log yellow stopButton "Operation cancelled"
         else
           counts <- deleteBranches this branches;;
           cleanupLocal this;;
           emit (Print None "");;
           log green party "Cleanup complete!";;
           log green checkMark
             ("Deleted: " ++ showZ (deletedCount counts) ++ " branches");;
           (if 0 <? failedCount counts then
              log red crossMark
                ("Failed: " ++ showZ (failedCount counts) ++ " branches")
            else ret tt);;
           remainingCount <- getRemainingBranchCount this;;
           log blue barChart
             ("Remaining remote branches: " ++ showRemaining remainingCount);;
           log yellow bulb
             "Tip: Run 'git branch -vv' to see if you have any local branches tracking deleted remotes")
    (fun error =>
       log red crossMark ("Error: " ++ message error);;
       processExit 1).

(** [run] in three pieces, for the proofs: its handler, and what it does
    once [getMergedBranches] has returned [branches]. *)
Definition runHandler (error : Error) : M W unit :=
  log red crossMark ("Error: " ++ message error);;
  processExit 1.

Definition afterConfirmation (this : BranchPruner) (branches : list string) : M W unit :=
  counts <- deleteBranches this branches;;
  cleanupLocal this;;
  emit (Print None "");;
  log green party "Cleanup complete!";;
  log green checkMark
    ("Deleted: " ++ showZ (deletedCount counts) ++ " branches");;
  (if 0 <? failedCount counts then
     log red crossMark
       ("Failed: " ++ showZ (failedCount counts) ++ " branches")
   else ret tt);;
  remainingCount <- getRemainingBranchCount this;;
  log blue barChart
    ("Remaining remote branches: " ++ showRemaining remainingCount);;
  log yellow bulb
    "Tip: Run 'git branch -vv' to see if you have any local branches tracking deleted remotes".

Definition afterCandidates (this : BranchPruner) (branches : list string) : M W unit :=
  if Nat.eqb (List.length branches) 0 then
    log green checkMark "No merged branches found to delete"
  else
    displayBranches this branches;;
    if dryRun this then
      log yellow magnifier "DRY RUN: The above branches would be deleted from origin";;
      log yellow bulb "Run without --dry-run to actually delete them"
    else
      confirmed <- confirmDeletion this branches;;
      if negb confirmed then
        log yellow stopButton "Operation cancelled"
      else afterConfirmation this branches.

(** The part of [run] before the candidates are looked at: its first five
    statements, which end with the list [getMergedBranches] returns. *)
Definition findCandidates (this : BranchPruner) : M W (list string) :=
  log blue rocket "Starting merged branch cleanup...";;
  checkGitRepository this;;
  fetchLatest this;;
  checkMainBranch this;;
  getMergedBranches this.

End Methods.

(** ** Reading a trace *)

(** The branches of the delete calls of a trace, in order. *)
Fixpoint deleteCalls (t : list event) : list string :=
  match t with
  | [] => []
  | GitPush _ branch _ :: t' => branch :: deleteCalls t'
  | _ :: t' => deleteCalls t'
  end.

Definition isPrompt (ev : event) : bool :=
  match ev with Prompt _ => true | _ => false end.

Definition isPush (ev : event) : bool :=
  match ev with GitPush _ _ _ => true | _ => false end.

Definition isPrune (ev : event) : bool :=
  match ev with GitRemote _ => true | _ => false end.

Definition isFetch (ev : event) : bool :=
  match ev with GitFetch _ _ => true | _ => false end.

(** The branches a trace displays, in order. *)
Fixpoint displayed (t : list event) : list string :=
  match t with
  | [] => []
  | Bullet branch :: t' => branch :: displayed t'
  | _ :: t' => displayed t'
  end.

(** ** A concrete world

    A repository whose remote has [main] and three merged branches.  The
    world counts the collaborator calls made so far.  The knobs: what the
    repository check answers, whether [fetch] works, the merged refs, the
    branch whose deletion the remote refuses, and the user's line. *)
Definition sampleCommit : Commit.t :=
  {| Commit.hash := "a1b2c3d4e5f6"; Commit.message := "Add login";
     Commit.author_name := "Jo"; Commit.date := "2024-01-01" |}.

Definition sampleWorld (isRepo : settled bool) (fetchOk : bool)
    (merged : list string) (refused : string) (line : option bool)
    : Collaborators nat :=
  {| git_checkIsRepo := fun w => (isRepo, S w);
     git_fetch := fun _ _ w =>
       (if fetchOk then Resolved tt
        else Rejected (mkError "fatal: not a git repository"), S w);
     git_branch := fun args w =>
       (match args with
        | [_] => Resolved ("origin/main" :: merged)
        | _ => Resolved merged
        end, S w);
     git_log := fun from _ w =>
       (if String.eqb from "origin/gone" then Rejected (mkError "unknown revision")
        else Resolved (Some sampleCommit), S w);
     git_push := fun _ branch _ w =>
       (if String.eqb branch refused then Rejected (mkError "remote rejected")
        else Resolved tt, S w);
     git_remote := fun _ w => (Resolved tt, S w);
     readAnswer := fun w => (Resolved line, S w);
     clock := fun w => 1704067200000 + 10 * msPerDay + Z.of_nat w;
     parseDate := fun s =>
       if String.eqb s "2024-01-01" then Num 1704067200000 else NaN |}.

Definition threeMerged : list string :=
  ["origin/main"; "origin/a"; "origin/b"; "origin/c"].

(** A query result with the main ref, the remote's [HEAD], [develop], an
    ordinary branch and a branch whose ref happens to end with the main
    ref. *)
Definition mixedMerged : list string :=
  ["origin/main"; "origin/HEAD"; "origin/develop"; "origin/a";
   "origin/foo/origin/main"].

Definition cleanWorld : Collaborators nat :=
  sampleWorld (Resolved true) true threeMerged "b" None.

Definition mixedWorld : Collaborators nat :=
  sampleWorld (Resolved true) true mixedMerged "b" None.

(** Outside a repository: the check answers false and [fetch] fails. *)
Definition strayWorld : Collaborators nat :=
  sampleWorld (Resolved false) false threeMerged "b" None.

Definition defaultPruner : BranchPruner :=
  constructor (Options.mk None None None None).

Definition dryPruner : BranchPruner :=
  constructor (Options.mk None (Some true) None None).

Definition forcePruner : BranchPruner :=
  constructor (Options.mk None None (Some true) None).

Definition noKeepPruner : BranchPruner :=
  constructor (Options.mk None None None (Some false)).

(** ** Characterisations used by the proofs *)

(** The test the loop of [getMergedBranches] applies to one name: none of
    its three [continue] branches fires. *)
Definition kept (this : BranchPruner) (branch : string) : bool :=
  negb (String.eqb branch (mainBranch this))
  && negb (keepDevelop this && String.eqb branch "develop")
  && negb (String.eqb branch "HEAD").

(** The console lines of that loop: one note per skipped [develop]. *)
Fixpoint keepTrace (this : BranchPruner) (mergedBranches : list string) : list event :=
  match mergedBranches with
  | [] => []
  | branch :: rest =>
      if negb (String.eqb branch (mainBranch this))
         && (keepDevelop this && String.eqb branch "develop")
      then Log yellow warning
             "Keeping 'develop' branch (use --no-keep-develop to remove)"
           :: keepTrace this rest
      else keepTrace this rest
  end.

(** The arguments of the merged-branch query. *)
Definition mergedQuery (this : BranchPruner) : list string :=
  ["-r"; "--merged"; "origin/" ++ mainBranch this].

(** No event of the trace is of the kind [p]. *)
Definition never (p : event -> bool) (t : list event) : bool :=
  forallb (fun ev => negb (p ev)) t.

(** No event of the trace is a delete call, a prompt or a local prune. *)
Definition harmless (t : list event) : bool :=
  never (fun ev => isPush ev || isPrompt ev || isPrune ev) t.

(** Every event a computation can produce satisfies [P]. *)
Definition emits {W A : Type} (P : event -> bool) (m : M W A) : Prop :=
  forall (w w' : W) (r : outcome A) (t : list event),
    m w = (r, w', t) -> forallb P t = true.

(** The confirmation gate read for every run with [force] unset and at
    least one candidate, dry runs included: the prompt occurs. *)
Definition prompts_whenever_not_forced : Prop :=
  forall (W : Type) (env : Collaborators W) (this : BranchPruner) (w w1 : W)
         (branches : list string) (t1 : list event),
    force this = false ->
    findCandidates env this w = (Ret branches, w1, t1) ->
    branches <> [] ->
    existsb isPrompt (snd (run env this w)) = true.

(** ** Further worlds and readers *)

(** The lines [deleteBranches] prints after a delete call: green with a
    check mark when it succeeded, red with a cross when it failed. *)
Definition isDeletedLine (ev : event) : bool :=
  match ev with Log green checkMark _ => true | _ => false end.

Definition isFailedLine (ev : event) : bool :=
  match ev with Log red crossMark _ => true | _ => false end.

Definition isBranchQuery (ev : event) : bool :=
  match ev with GitBranch _ => true | _ => false end.

Definition isBullet (ev : event) : bool :=
  match ev with Bullet _ => true | _ => false end.

(** An event that asks something of a collaborator, as opposed to console
    output. *)
Definition isCall (ev : event) : bool :=
  match ev with
  | Log _ _ _ | Print _ _ | Bullet _ => false
  | _ => true
  end.

(** The note of [getMergedBranches] about a [develop] it keeps. *)
Definition developNote : event :=
  Log yellow warning "Keeping 'develop' branch (use --no-keep-develop to remove)".

(** A computation that, when it ends by [process.exit], does so with
    status 1. *)
Definition exitsWithOne {W A : Type} (m : M W A) : Prop :=
  forall (w w' : W) (r : outcome A) (t : list event) (c : Z),
    m w = (r, w', t) -> r = Exit c -> c = 1.

(** The sample repository with nothing merged but the main branch. *)
Definition tidyWorld : Collaborators nat :=
  sampleWorld (Resolved true) true ["origin/main"] "b" None.

(** The sample repository with a user who answers yes. *)
Definition yesWorld : Collaborators nat :=
  sampleWorld (Resolved true) true threeMerged "b" (Some true).

(** The sample repository when git itself cannot be run: the repository
    check rejects. *)
Definition brokenWorld : Collaborators nat :=
  sampleWorld (Rejected (mkError "spawn git ENOENT")) true threeMerged "b" None.

(** The sample repository with a prompt that fails (no terminal), a remote
    prune that fails and a merged-branch query that fails, each taken
    alone. *)
Definition promptlessWorld : Collaborators nat :=
  {| git_checkIsRepo := git_checkIsRepo cleanWorld;
     git_fetch := git_fetch cleanWorld;
     git_branch := git_branch cleanWorld;
     git_log := git_log cleanWorld;
     git_push := git_push cleanWorld;
     git_remote := git_remote cleanWorld;
     readAnswer := fun w => (Rejected (mkError "prompt closed"), S w);
     clock := clock cleanWorld;
     parseDate := parseDate cleanWorld |}.

Definition prunelessWorld : Collaborators nat :=
  {| git_checkIsRepo := git_checkIsRepo cleanWorld;
     git_fetch := git_fetch cleanWorld;
     git_branch := git_branch cleanWorld;
     git_log := git_log cleanWorld;
     git_push := git_push cleanWorld;
     git_remote := fun _ w => (Rejected (mkError "prune failed"), S w);
     readAnswer := readAnswer cleanWorld;
     clock := clock cleanWorld;
     parseDate := parseDate cleanWorld |}.

Definition querylessWorld : Collaborators nat :=
  {| git_checkIsRepo := git_checkIsRepo cleanWorld;
     git_fetch := git_fetch cleanWorld;
     git_branch := fun args w =>
       (match args with
        | [_] => Resolved threeMerged
        | _ => Rejected (mkError "malformed object name")
        end, S w);
     git_log := git_log cleanWorld;
     git_push := git_push cleanWorld;
     git_remote := git_remote cleanWorld;
     readAnswer := readAnswer cleanWorld;
     clock := clock cleanWorld;
     parseDate := parseDate cleanWorld |}.

(** The sample repository when the merged-branch query also lists the
    symbolic ref of the remote's [HEAD]. *)
Definition symbolicWorld : Collaborators nat :=
  sampleWorld (Resolved true) true
    ["origin/HEAD -> origin/main"; "origin/a"] "b" None.

(** A date parser that reads every string as the given time value. *)
Definition parseAs (t : Z) : string -> number := fun _ => Num t.

(** A pruner whose main branch the sample remote does not have. *)
Definition masterPruner : BranchPruner :=
  constructor (Options.mk (Some "master") None None None).

(** * Proofs *)

(** ** Relative dates *)


(** The examples of the specification: 0, 1, 5, 10, 40 and 400 elapsed
    days. *)
Example getRelativeDate_examples :
  let at_day n := getRelativeDate (fun _ => Num 0) (n * msPerDay + 1234) "2024-01-01" in
  at_day 0 = "today" /\ at_day 1 = "yesterday" /\ at_day 5 = "5 days ago" /\
  at_day 10 = "1 weeks ago" /\ at_day 40 = "1 months ago" /\
  at_day 400 = "1 years ago".
Proof. cbv zeta. repeat split; reflexivity. Qed.

(** C5 (as the code behaves on the failing input): for a date string the
    runtime cannot read, every comparison on the elapsed days is false and
    [getRelativeDate] falls through to its last line, returning
    "NaN years ago"; the handler that returns "unknown" is not reached. *)
Theorem getRelativeDate_unparseable (parse : string -> number) (now : Z) (s : string) :
  parse s = NaN ->
  getRelativeDate parse now s = "NaN years ago" /\
  getRelativeDate parse now s <> "unknown".
Proof.
  intros Hp. unfold getRelativeDate, relativeDateBody. rewrite Hp.
  cbn. split; [reflexivity | discriminate].
Qed.

Lemma getRelativeDate_unparseable_witness :
  parseDate (sampleWorld (Resolved true) true threeMerged "b" None) "unknown" = NaN /\
  getRelativeDate (parseDate (sampleWorld (Resolved true) true threeMerged "b" None))
    1704067200000 "unknown" = "NaN years ago" /\
  getRelativeDate (parseDate (sampleWorld (Resolved true) true threeMerged "b" None))
    1704067200000 "unknown" <> "unknown".
Proof.
  split; [reflexivity |].
  apply (getRelativeDate_unparseable
           (parseDate (sampleWorld (Resolved true) true threeMerged "b" None))
           1704067200000 "unknown").
  reflexivity.
Defined.

(** ** The candidate list *)

Section Candidates.

Context {W : Type}.
Variable env : Collaborators W.

Lemma keepLoop_run (this : BranchPruner) (mergedBranches acc : list string) (w : W) :
  keepLoop this mergedBranches acc w
  = (Ret (acc ++ filter (kept this) mergedBranches)%list, w, keepTrace this mergedBranches).
Proof.
  revert acc. induction mergedBranches as [| branch rest IH]; intros acc.
  - cbn. now rewrite app_nil_r.
  - cbn [keepLoop keepTrace filter]. unfold kept at 1.
    destruct (String.eqb branch (mainBranch this)); cbn [negb andb].
    + apply IH.
    + destruct (keepDevelop this && String.eqb branch "develop")%bool; cbn [negb andb].
      * unfold bind, log, emit. rewrite IH. reflexivity.
      * destruct (String.eqb branch "HEAD"); cbn [negb].
        -- apply IH.
        -- rewrite IH, <- app_assoc. reflexivity.
Qed.

(** What [getMergedBranches] does when the query resolves. *)
Lemma getMergedBranches_resolved (this : BranchPruner) (w w1 : W) (all : list string) :
  git_branch env (mergedQuery this) w = (Resolved all, w1) ->
  getMergedBranches env this w
  = (Ret (filter (kept this) (mergedNames this all)), w1,
     Log yellow magnifier "Finding merged branches..."
       :: GitBranch (mergedQuery this)
       :: keepTrace this (mergedNames this all)).
Proof.
  intros Hq. unfold getMergedBranches, bind, tryCatch, log, emit, await.
  fold (mergedQuery this). rewrite Hq, keepLoop_run. reflexivity.
Qed.

(** X21: when the merged-branch query rejects, [getMergedBranches] prints
    "Error finding merged branches" and throws the same error again. *)
Lemma getMergedBranches_rejected (this : BranchPruner) (w w1 : W) (e : Error) :
  git_branch env (mergedQuery this) w = (Rejected e, w1) ->
  getMergedBranches env this w
  = (Throw e, w1,
     [Log yellow magnifier "Finding merged branches...";
      GitBranch (mergedQuery this);
      Log red crossMark "Error finding merged branches"]).
Proof.
  intros Hq. unfold getMergedBranches, bind, tryCatch, log, emit, await, throw.
  fold (mergedQuery this). rewrite Hq. reflexivity.
Qed.

Lemma kept_not_main (this : BranchPruner) (l : list string) :
  ~ In (mainBranch this) (filter (kept this) l).
Proof.
  intros Hin. apply filter_In in Hin. destruct Hin as [_ Hk].
  unfold kept in Hk. rewrite String.eqb_refl in Hk. discriminate.
Qed.

Lemma kept_not_HEAD (this : BranchPruner) (l : list string) :
  ~ In "HEAD" (filter (kept this) l).
Proof.
  intros Hin. apply filter_In in Hin. destruct Hin as [_ Hk].
  unfold kept in Hk. rewrite (String.eqb_refl "HEAD") in Hk.
  now rewrite andb_false_r in Hk.
Qed.

Lemma kept_not_develop (this : BranchPruner) (l : list string) :
  keepDevelop this = true -> ~ In "develop" (filter (kept this) l).
Proof.
  intros Hkd Hin. apply filter_In in Hin. destruct Hin as [_ Hk].
  unfold kept in Hk. rewrite Hkd, (String.eqb_refl "develop") in Hk.
  cbn in Hk. now rewrite andb_false_r in Hk.
Qed.

(** C1: whatever list of refs the merged-branch query resolves to and
    whatever the configuration, [getMergedBranches] returns a candidate list
    that contains neither the main branch name nor "HEAD", nor "develop"
    when [keepDevelop] is true. *)
Theorem getMergedBranches_protects (this : BranchPruner) (w w1 : W) (all : list string) :
  git_branch env (mergedQuery this) w = (Resolved all, w1) ->
  exists candidates t,
    getMergedBranches env this w = (Ret candidates, w1, t) /\
    ~ In (mainBranch this) candidates /\
    ~ In "HEAD" candidates /\
    (keepDevelop this = true -> ~ In "develop" candidates).
Proof.
  intros Hq. eexists _, _. split.
  - apply getMergedBranches_resolved, Hq.
  - split; [apply kept_not_main |].
    split; [apply kept_not_HEAD | apply kept_not_develop].
Qed.

Lemma eqb_String (a b : ascii) (s t : string) :
  String.eqb (String a s) (String b t) = (Ascii.eqb a b && String.eqb s t)%bool.
Proof. reflexivity. Qed.

(** The ref of [develop] is dropped by the main-branch filter only when the
    main branch is [develop]. *)
Lemma develop_ref_endsWith (main : string) :
  endsWith "origin/develop" ("origin/" ++ main) = true -> main = "develop".
Proof.
  cbn [endsWith append]. rewrite !eqb_String.
  cbn [Ascii.eqb Bool.eqb andb orb].
  change (String.eqb "" (String "o" ("rigin/" ++ main))) with false.
  rewrite orb_false_r. intros H. apply String.eqb_eq in H. now symmetry.
Qed.

Lemma develop_name_endsWith (main : string) :
  endsWith "develop" ("origin/" ++ main) = false.
Proof. reflexivity. Qed.

Lemma develop_in_mergedNames (this : BranchPruner) (all : list string) :
  mainBranch this <> "develop" ->
  In "origin/develop" all \/ In "develop" all ->
  In "develop" (mergedNames this all).
Proof.
  intros Hmain Hin. unfold mergedNames. apply in_map_iff.
  destruct Hin as [Hin | Hin].
  - exists "origin/develop". split; [reflexivity |].
    apply filter_In. split; [apply filter_In; split; [exact Hin | reflexivity] |].
    destruct (endsWith "origin/develop" ("origin/" ++ mainBranch this)) eqn:E;
      [| reflexivity].
    apply develop_ref_endsWith in E. contradiction.
  - exists "develop". split; [reflexivity |].
    apply filter_In. split; [apply filter_In; split; [exact Hin | reflexivity] |].
    now rewrite develop_name_endsWith.
Qed.

(** C8: when the merged-branch query lists the ref of [develop]
    ("origin/develop", or the bare name), the main branch is not "develop"
    and [keepDevelop] is false, the candidate list contains "develop". *)
Theorem getMergedBranches_includes_develop
    (this : BranchPruner) (w w1 : W) (all : list string) :
  git_branch env (mergedQuery this) w = (Resolved all, w1) ->
  In "origin/develop" all \/ In "develop" all ->
  mainBranch this <> "develop" ->
  keepDevelop this = false ->
  exists candidates t,
    getMergedBranches env this w = (Ret candidates, w1, t) /\
    In "develop" candidates.
Proof.
  intros Hq Hin Hmain Hkd. eexists _, _. split.
  - apply getMergedBranches_resolved, Hq.
  - apply filter_In. split.
    + now apply develop_in_mergedNames.
    + unfold kept. rewrite Hkd.
      destruct (String.eqb "develop" (mainBranch this)) eqn:E.
      * apply String.eqb_eq in E. now symmetry in E.
      * reflexivity.
Qed.

Lemma mergedNames_app (this : BranchPruner) (l1 l2 : list string) :
  mergedNames this (l1 ++ l2) = (mergedNames this l1 ++ mergedNames this l2)%list.
Proof. unfold mergedNames. now rewrite !filter_app, map_app. Qed.

(** A ref that ends with the main ref contributes no name. *)
Lemma mergedNames_main_ref (this : BranchPruner) (ref : string) :
  endsWith ref ("origin/" ++ mainBranch this) = true ->
  mergedNames this [ref] = [].
Proof.
  intros He. unfold mergedNames. cbn [filter].
  destruct (negb (includes ref " -> ")); cbn [filter map]; [| reflexivity].
  rewrite He. reflexivity.
Qed.

Lemma mergedNames_drop (this : BranchPruner) (l1 l2 : list string) (ref : string) :
  endsWith ref ("origin/" ++ mainBranch this) = true ->
  mergedNames this (l1 ++ ref :: l2) = mergedNames this (l1 ++ l2).
Proof.
  intros He. change (ref :: l2) with ([ref] ++ l2)%list.
  rewrite !mergedNames_app, (mergedNames_main_ref _ _ He). reflexivity.
Qed.

Lemma mergedNames_origin (this : BranchPruner) (all : list string) (name : string) :
  In name (mergedNames this all) ->
  exists ref, In ref all /\
    endsWith ref ("origin/" ++ mainBranch this) = false /\
    name = trim (replace ref "origin/" "").
Proof.
  unfold mergedNames. intros Hin. apply in_map_iff in Hin.
  destruct Hin as [ref [Hname Hin]].
  apply filter_In in Hin. destruct Hin as [Hin He].
  apply filter_In in Hin. destruct Hin as [Hin _].
  exists ref. repeat split; [exact Hin | | now symmetry].
  now apply negb_true_iff in He.
Qed.

End Candidates.

(** C10: a ref of the query result that ends with "origin/<mainBranch>",
    whatever precedes that suffix, is left out: every candidate is the name
    of another ref, one that does not end with "origin/<mainBranch>", and
    [getMergedBranches] returns the list and produces the trace it does in
    any world whose query result is the same list without that ref. *)
Theorem getMergedBranches_drops_main_suffix
    {W : Type} (env : Collaborators W) (this : BranchPruner) (w w1 : W)
    (l1 l2 : list string) (ref : string) :
  endsWith ref ("origin/" ++ mainBranch this) = true ->
  git_branch env (mergedQuery this) w = (Resolved (l1 ++ ref :: l2)%list, w1) ->
  exists candidates t,
    getMergedBranches env this w = (Ret candidates, w1, t) /\
    (forall name, In name candidates ->
       exists ref', In ref' (l1 ++ l2)%list /\
         endsWith ref' ("origin/" ++ mainBranch this) = false /\
         name = trim (replace ref' "origin/" "")) /\
    (forall (W' : Type) (env' : Collaborators W') (w' w1' : W'),
       git_branch env' (mergedQuery this) w' = (Resolved (l1 ++ l2)%list, w1') ->
       getMergedBranches env' this w' = (Ret candidates, w1', t)).
Proof.
  intros He Hq. eexists _, _. split; [apply getMergedBranches_resolved, Hq |].
  rewrite (mergedNames_drop _ _ _ _ He). split.
  - intros name Hin. apply filter_In in Hin. destruct Hin as [Hin _].
    now apply mergedNames_origin.
  - intros W' env' w' w1' Hq'. apply getMergedBranches_resolved, Hq'.
Qed.

(** ** The deletion phase *)

Section Deletion.

Context {W : Type}.
Variable env : Collaborators W.

(** One turn of the loop whose delete call succeeds. *)
Lemma deleteLoop_deleted (this : BranchPruner) (branch : string) (rest : list string)
    (counts : DeleteResult) (w w1 : W) :
  git_push env "origin" branch ["--delete"] w = (Resolved tt, w1) ->
  deleteLoop env this (branch :: rest) counts w
  = let '(r, w2, t2) :=
      deleteLoop env this rest
        {| deletedCount := deletedCount counts + 1;
           failedCount := failedCount counts |} w1 in
    (r, w2,
     Print (Some yellow) ("Deleting origin/" ++ branch ++ "...")
       :: GitPush "origin" branch ["--delete"]
       :: Log green checkMark ("Deleted origin/" ++ branch) :: t2).
Proof.
  intros Hp. cbn [deleteLoop]. unfold bind, tryCatch, log, emit, await, ret.
  rewrite Hp. cbv beta iota zeta.
  destruct (deleteLoop env this rest _ w1) as [[r w2] t2]. reflexivity.
Qed.

(** One turn of the loop whose delete call fails: the error is caught and
    the loop goes on with the rest. *)
Lemma deleteLoop_failed (this : BranchPruner) (branch : string) (rest : list string)
    (counts : DeleteResult) (w w1 : W) (e : Error) :
  git_push env "origin" branch ["--delete"] w = (Rejected e, w1) ->
  deleteLoop env this (branch :: rest) counts w
  = let '(r, w2, t2) :=
      deleteLoop env this rest
        {| deletedCount := deletedCount counts;
           failedCount := failedCount counts + 1 |} w1 in
    (r, w2,
     Print (Some yellow) ("Deleting origin/" ++ branch ++ "...")
       :: GitPush "origin" branch ["--delete"]
       :: Log red crossMark ("Failed to delete origin/" ++ branch) :: t2).
Proof.
  intros Hp. cbn [deleteLoop]. unfold bind, tryCatch, log, emit, await, ret.
  rewrite Hp. cbv beta iota zeta.
  destruct (deleteLoop env this rest _ w1) as [[r w2] t2]. reflexivity.
Qed.

(** The loop always returns; it calls delete once per branch, in order, and
    each turn adds one to exactly one counter.  Its events are console
    lines and delete calls. *)
Lemma deleteLoop_total (this : BranchPruner) (branches : list string) :
  forall (counts : DeleteResult) (w : W),
  exists counts' w' t,
    deleteLoop env this branches counts w = (Ret counts', w', t) /\
    deleteCalls t = branches /\
    deletedCount counts' + failedCount counts'
      = deletedCount counts + failedCount counts + Z.of_nat (List.length branches) /\
    deletedCount counts <= deletedCount counts' /\
    failedCount counts <= failedCount counts' /\
    forallb (fun ev => negb (isPrompt ev || isPrune ev)) t = true.
Proof.
  induction branches as [| branch rest IH]; intros counts w.
  - exists counts, w, []. cbn. repeat split; lia.
  - destruct (git_push env "origin" branch ["--delete"] w) as [[[] | e] w1] eqn:Hp.
    + rewrite (deleteLoop_deleted _ _ _ _ _ _ Hp).
      destruct (IH {| deletedCount := deletedCount counts + 1;
                      failedCount := failedCount counts |} w1)
        as (c' & w' & t & Hrun & Hcalls & Hsum & Hd & Hf & Hq).
      rewrite Hrun. exists c', w'. eexists. split; [reflexivity |].
      cbn [deleteCalls forallb isPrompt isPrune orb negb andb] in *.
      rewrite Hcalls, Hq. cbn [deletedCount failedCount List.length] in *.
      repeat split; lia.
    + rewrite (deleteLoop_failed _ _ _ _ _ _ _ Hp).
      destruct (IH {| deletedCount := deletedCount counts;
                      failedCount := failedCount counts + 1 |} w1)
        as (c' & w' & t & Hrun & Hcalls & Hsum & Hd & Hf & Hq).
      rewrite Hrun. exists c', w'. eexists. split; [reflexivity |].
      cbn [deleteCalls forallb isPrompt isPrune orb negb andb] in *.
      rewrite Hcalls, Hq. cbn [deletedCount failedCount List.length] in *.
      repeat split; lia.
Qed.

Lemma deleteBranches_unfold (this : BranchPruner) (branches : list string) (w : W) :
  deleteBranches env this branches w
  = let '(r, w', t) :=
      deleteLoop env this branches {| deletedCount := 0; failedCount := 0 |} w in
    (r, w', Log red wastebasket "Deleting merged branches from origin..." :: t).
Proof.
  unfold deleteBranches, bind, log, emit.
  destruct (deleteLoop env this branches _ w) as [[r w'] t]. reflexivity.
Qed.

(** [deleteBranches] returns in every world, with one delete call per
    branch, in order. *)
Lemma deleteBranches_calls_in_order (this : BranchPruner)
    (branches : list string) (w : W) :
  exists counts w' t,
    deleteBranches env this branches w = (Ret counts, w', t) /\
    deleteCalls t = branches.
Proof.
  rewrite deleteBranches_unfold.
  destruct (deleteLoop_total this branches {| deletedCount := 0; failedCount := 0 |} w)
    as (c' & w' & t & Hrun & Hcalls & _).
  rewrite Hrun. exists c', w'. eexists. split; [reflexivity | exact Hcalls].
Qed.

(** C2: [deleteBranches] always returns, and its delete calls are the
    candidates in listing order, whatever deletions fail; a deletion that
    succeeds adds one to [deletedCount] and one that fails adds one to
    [failedCount], the loop going on with the rest in both cases.  In
    particular, for three candidates whose second deletion fails and whose
    other two succeed, the result is deletedCount = 2 and failedCount = 1
    and the three delete calls occur. *)
Theorem deleteBranches_attempts_all (this : BranchPruner) :
  (forall (branches : list string) (w : W),
     exists counts w' t,
       deleteBranches env this branches w = (Ret counts, w', t) /\
       deleteCalls t = branches) /\
  (forall (branch : string) (rest : list string) (counts : DeleteResult)
          (w w1 : W) (e : Error),
     git_push env "origin" branch ["--delete"] w = (Rejected e, w1) ->
     exists t,
       deleteCalls t = [branch] /\
       deleteLoop env this (branch :: rest) counts w
       = let '(r, w2, t2) :=
           deleteLoop env this rest
             {| deletedCount := deletedCount counts;
                failedCount := failedCount counts + 1 |} w1 in
         (r, w2, (t ++ t2)%list)) /\
  (forall (b1 b2 b3 : string) (w w1 w2 w3 : W) (e : Error),
     git_push env "origin" b1 ["--delete"] w = (Resolved tt, w1) ->
     git_push env "origin" b2 ["--delete"] w1 = (Rejected e, w2) ->
     git_push env "origin" b3 ["--delete"] w2 = (Resolved tt, w3) ->
     exists t,
       deleteBranches env this [b1; b2; b3] w
       = (Ret {| deletedCount := 2; failedCount := 1 |}, w3, t) /\
       deleteCalls t = [b1; b2; b3] /\
       filter isPush t
       = [GitPush "origin" b1 ["--delete"]; GitPush "origin" b2 ["--delete"];
          GitPush "origin" b3 ["--delete"]]).
Proof.
  split; [| split].
  - intros branches w. apply deleteBranches_calls_in_order.
  - intros branch rest counts w w1 e Hp.
    exists [Print (Some yellow) ("Deleting origin/" ++ branch ++ "...");
            GitPush "origin" branch ["--delete"];
            Log red crossMark ("Failed to delete origin/" ++ branch)].
    split; [reflexivity |].
    rewrite (deleteLoop_failed _ _ _ _ _ _ _ Hp).
    destruct (deleteLoop env this rest _ w1) as [[r w2] t2]. reflexivity.
  - intros b1 b2 b3 w w1 w2 w3 e H1 H2 H3.
    rewrite deleteBranches_unfold.
    rewrite (deleteLoop_deleted _ _ _ _ _ _ H1).
    rewrite (deleteLoop_failed _ _ _ _ _ _ _ H2).
    rewrite (deleteLoop_deleted _ _ _ _ _ _ H3).
    cbn. eexists. repeat split.
Qed.

(** C9: for every candidate list and every pattern of successes and
    failures, the two counts [deleteBranches] returns add up to the length
    of the list, and neither is negative. *)
Theorem deleteBranches_counts (this : BranchPruner) (branches : list string) (w : W) :
  exists counts w' t,
    deleteBranches env this branches w = (Ret counts, w', t) /\
    deletedCount counts + failedCount counts = Z.of_nat (List.length branches) /\
    0 <= deletedCount counts /\
    0 <= failedCount counts.
Proof.
  rewrite deleteBranches_unfold.
  destruct (deleteLoop_total this branches {| deletedCount := 0; failedCount := 0 |} w)
    as (c' & w' & t & Hrun & _ & Hsum & Hd & Hf & _).
  rewrite Hrun. exists c', w'. eexists. split; [reflexivity |].
  cbn [deletedCount failedCount] in *. repeat split; lia.
Qed.

End Deletion.

(** ** Reasoning on computations *)

Section Computations.

Context {W : Type}.

Lemma bind_assoc {A B C : Type} (m : M W A) (f : A -> M W B) (g : B -> M W C) (w : W) :
  bind (bind m f) g w = bind m (fun x => bind (f x) g) w.
Proof.
  unfold bind. destruct (m w) as [[[a | e | c] w1] t1]; try reflexivity.
  destruct (f a w1) as [[[b | e | c] w2] t2]; try reflexivity.
  destruct (g b w2) as [[r w3] t3]. now rewrite app_assoc.
Qed.

Lemma bind_ext {A B : Type} (m : M W A) (f g : A -> M W B) (w : W) :
  (forall x w', f x w' = g x w') -> bind m f w = bind m g w.
Proof.
  intros H. unfold bind. destruct (m w) as [[[a | e | c] w1] t1]; try reflexivity.
  now rewrite H.
Qed.

Lemma bind_returns {A B : Type} (m : M W A) (k : A -> M W B) (w w1 : W)
    (a : A) (t1 : list event) :
  m w = (Ret a, w1, t1) ->
  bind m k w = let '(r, w2, t2) := k a w1 in (r, w2, (t1 ++ t2)%list).
Proof. intros Hm. unfold bind. now rewrite Hm. Qed.

Lemma tryCatch_ext {A : Type} (m m' : M W A) (h : Error -> M W A) (w : W) :
  m w = m' w -> tryCatch m h w = tryCatch m' h w.
Proof. intros H. unfold tryCatch. now rewrite H. Qed.

Lemma tryCatch_bind_returns {A B : Type} (m : M W A) (k : A -> M W B)
    (h : Error -> M W B) (w w1 : W) (a : A) (t1 : list event) :
  m w = (Ret a, w1, t1) ->
  tryCatch (bind m k) h w
  = let '(r, w2, t2) := tryCatch (k a) h w1 in (r, w2, (t1 ++ t2)%list).
Proof.
  intros Hm. unfold tryCatch, bind. rewrite Hm.
  destruct (k a w1) as [[[b | e | c] w2] t2]; try reflexivity.
  destruct (h e w2) as [[r w3] t3]. now rewrite app_assoc.
Qed.

Lemma tryCatch_bind_throws {A B : Type} (m : M W A) (k : A -> M W B)
    (h : Error -> M W B) (w w1 : W) (e : Error) (t1 : list event) :
  m w = (Throw e, w1, t1) ->
  tryCatch (bind m k) h w
  = let '(r, w2, t2) := h e w1 in (r, w2, (t1 ++ t2)%list).
Proof. intros Hm. unfold tryCatch, bind. now rewrite Hm. Qed.

Lemma tryCatch_bind_exits {A B : Type} (m : M W A) (k : A -> M W B)
    (h : Error -> M W B) (w w1 : W) (c : Z) (t1 : list event) :
  m w = (Exit c, w1, t1) ->
  tryCatch (bind m k) h w = (Exit c, w1, t1).
Proof. intros Hm. unfold tryCatch, bind. now rewrite Hm. Qed.

Lemma emits_ret {A : Type} (P : event -> bool) (a : A) : emits P (ret a : M W A).
Proof. intros w w' r t H. inversion H. reflexivity. Qed.

Lemma emits_throw {A : Type} (P : event -> bool) (e : Error) :
  emits P (throw e : M W A).
Proof. intros w w' r t H. inversion H. reflexivity. Qed.

Lemma emits_processExit {A : Type} (P : event -> bool) (c : Z) :
  emits P (processExit c : M W A).
Proof. intros w w' r t H. inversion H. reflexivity. Qed.

Lemma emits_emit (P : event -> bool) (ev : event) :
  P ev = true -> emits P (emit ev : M W unit).
Proof. intros HP w w' r t H. inversion H. cbn. now rewrite HP. Qed.

Lemma emits_log (P : event -> bool) (c : color) (i : icon) (text : string) :
  P (Log c i text) = true -> emits P (log c i text : M W unit).
Proof. apply emits_emit. Qed.

Lemma emits_await {A : Type} (P : event -> bool) (ev : event)
    (op : W -> settled A * W) :
  P ev = true -> emits P (await ev op).
Proof.
  intros HP w w' r t H. unfold await in H.
  destruct (op w) as [[a | e] w1]; inversion H; cbn; now rewrite HP.
Qed.

Lemma emits_bind {A B : Type} (P : event -> bool) (m : M W A) (k : A -> M W B) :
  emits P m -> (forall a, emits P (k a)) -> emits P (bind m k).
Proof.
  intros Hm Hk w w' r t H. unfold bind in H.
  destruct (m w) as [[[a | e | c] w1] t1] eqn:Em.
  - destruct (k a w1) as [[r2 w2] t2] eqn:Ek. inversion H; subst.
    rewrite forallb_app, (Hm _ _ _ _ Em), (Hk _ _ _ _ _ Ek). reflexivity.
  - inversion H; subst. exact (Hm _ _ _ _ Em).
  - inversion H; subst. exact (Hm _ _ _ _ Em).
Qed.

Lemma emits_tryCatch {A : Type} (P : event -> bool) (m : M W A)
    (h : Error -> M W A) :
  emits P m -> (forall e, emits P (h e)) -> emits P (tryCatch m h).
Proof.
  intros Hm Hh w w' r t H. unfold tryCatch in H.
  destruct (m w) as [[[a | e | c] w1] t1] eqn:Em.
  - inversion H; subst. exact (Hm _ _ _ _ Em).
  - destruct (h e w1) as [[r2 w2] t2] eqn:Eh. inversion H; subst.
    rewrite forallb_app, (Hm _ _ _ _ Em), (Hh _ _ _ _ _ Eh). reflexivity.
  - inversion H; subst. exact (Hm _ _ _ _ Em).
Qed.

End Computations.

(** Splits a computation along its binds and handlers; the leaves are
    closed by evaluating the predicate on the event. *)
Ltac emits_step :=
  first
    [ apply emits_bind; [| intros ?]
    | apply emits_tryCatch; [| intros ?]
    | apply emits_ret | apply emits_throw | apply emits_processExit
    | apply emits_log; reflexivity
    | apply emits_emit; reflexivity
    | apply emits_await; reflexivity ].

(** ** Looking up and displaying the candidates *)

Section Display.

Context {W : Type}.
Variable env : Collaborators W.

(** [getBranchInfo] returns in every world, after one log lookup. *)
Lemma getBranchInfo_total (this : BranchPruner) (branch : string) (w : W) :
  exists info w',
    getBranchInfo env this branch w
    = (Ret info, w', [GitLog ("origin/" ++ branch) 1]).
Proof.
  unfold getBranchInfo, tryCatch, bind, await, ret.
  destruct (git_log env ("origin/" ++ branch) 1 w) as [[[c |] | e] w1];
    eexists _, _; reflexivity.
Qed.

Lemma displayLoop_total (this : BranchPruner) (branches : list string) :
  forall w : W, exists w' t,
    displayLoop env this branches w = (Ret tt, w', t) /\ harmless t = true.
Proof.
  induction branches as [| branch rest IH]; intros w.
  - exists w, []. split; reflexivity.
  - destruct (getBranchInfo_total this branch w) as (info & w1 & Hinfo).
    destruct (IH w1) as (w2 & t2 & Hrest & Hq).
    cbn [displayLoop]. rewrite (bind_returns _ _ _ _ _ _ Hinfo).
    unfold relativeDateNow, bind, emit. rewrite Hrest.
    eexists _, _. split; [reflexivity |]. cbn. exact Hq.
Qed.

(** [displayBranches] returns in every world, and neither deletes, prompts
    nor prunes. *)
Lemma displayBranches_total (this : BranchPruner) (branches : list string) (w : W) :
  exists w' t,
    displayBranches env this branches w = (Ret tt, w', t) /\ harmless t = true.
Proof.
  destruct (displayLoop_total this branches w) as (w' & t & Hrun & Hq).
  unfold displayBranches, bind, log, emit. rewrite Hrun.
  eexists _, _. split; [reflexivity |]. cbn. exact Hq.
Qed.

(** X22: the branches [displayBranches] displays are the branches it is
    given, each once and in order, whatever the lookups answer. *)
Lemma displayBranches_displayed (this : BranchPruner) (branches : list string) :
  forall (w w' : W) (r : outcome unit) (t : list event),
    displayBranches env this branches w = (r, w', t) -> displayed t = branches.
Proof.
  assert (Hloop : forall (w w' : W) (r : outcome unit) (t : list event),
            displayLoop env this branches w = (r, w', t) -> displayed t = branches).
  { induction branches as [| branch rest IH]; intros w w' r t H.
    - inversion H. reflexivity.
    - destruct (getBranchInfo_total this branch w) as (info & w1 & Hinfo).
      cbn [displayLoop] in H. rewrite (bind_returns _ _ _ _ _ _ Hinfo) in H.
      unfold relativeDateNow, bind, emit in H.
      destruct (displayLoop env this rest w1) as [[r2 w2] t2] eqn:E.
      inversion H; subst. cbn [app displayed]. f_equal. exact (IH _ _ _ _ E). }
  intros w w' r t H. unfold displayBranches, bind, log, emit in H.
  destruct (displayLoop env this branches w) as [[r2 w2] t2] eqn:E.
  inversion H; subst. exact (Hloop _ _ _ _ E).
Qed.

(** C7: [getBranchInfo] never raises, and when the commit lookup rejects or
    yields no commit, the object it returns has the sentinel "unknown" in
    its four fields; hence displaying the candidates always returns. *)
Theorem getBranchInfo_degrades (this : BranchPruner) (branch : string) :
  (forall w : W, exists info w' t,
     getBranchInfo env this branch w = (Ret info, w', t)) /\
  (forall (w w1 : W) (r : settled (option Commit.t)),
     git_log env ("origin/" ++ branch) 1 w = (r, w1) ->
     r = Resolved None \/ (exists e, r = Rejected e) ->
     exists info,
       getBranchInfo env this branch w
       = (Ret info, w1, [GitLog ("origin/" ++ branch) 1]) /\
       Info.hash info = "unknown" /\ Info.message info = "unknown" /\
       Info.author info = "unknown" /\ Info.date info = "unknown") /\
  (forall (branches : list string) (w : W), exists w' t,
     displayBranches env this branches w = (Ret tt, w', t)).
Proof.
  split; [| split].
  - intros w. destruct (getBranchInfo_total this branch w) as (info & w' & H).
    now exists info, w', [GitLog ("origin/" ++ branch) 1].
  - intros w w1 r Hlog Hr. exists unknownInfo.
    unfold getBranchInfo, tryCatch, bind, await, ret. rewrite Hlog.
    destruct Hr as [-> | [e ->]]; repeat split; reflexivity.
  - intros branches w.
    destruct (displayBranches_total this branches w) as (w' & t & H & _).
    now exists w', t.
Qed.

End Display.

(** ** The run *)

Section Run.

Context {W : Type}.
Variable env : Collaborators W.

Lemma run_unfold (this : BranchPruner) :
  run env this
  = tryCatch
      (log blue rocket "Starting merged branch cleanup...";;
       checkGitRepository env this;;
       fetchLatest env this;;
       checkMainBranch env this;;
       branches <- getMergedBranches env this;;
       afterCandidates env this branches)
      runHandler.
Proof. reflexivity. Qed.

(** [run] is [findCandidates] followed by [afterCandidates], under the
    handler of [run]. *)
Lemma run_findCandidates (this : BranchPruner) (w : W) :
  run env this w
  = tryCatch (bind (findCandidates env this) (afterCandidates env this)) runHandler w.
Proof.
  rewrite run_unfold. apply tryCatch_ext. symmetry.
  unfold findCandidates.
  rewrite bind_assoc. apply bind_ext. intros _ w1.
  rewrite bind_assoc. apply bind_ext. intros _ w2.
  rewrite bind_assoc. apply bind_ext. intros _ w3.
  rewrite bind_assoc. reflexivity.
Qed.

Lemma run_from_candidates (this : BranchPruner) (w w1 : W)
    (branches : list string) (t1 : list event) :
  findCandidates env this w = (Ret branches, w1, t1) ->
  run env this w
  = let '(r, w2, t2) := tryCatch (afterCandidates env this branches) runHandler w1 in
    (r, w2, (t1 ++ t2)%list).
Proof.
  intros H. rewrite run_findCandidates. now apply tryCatch_bind_returns.
Qed.

Lemma printBranches_emits (P : event -> bool) (branches : list string) :
  (forall text, P (Print None text) = true) ->
  emits P (printBranches branches : M W unit).
Proof.
  intros HP. induction branches as [| b rest IH]; cbn [printBranches].
  - apply emits_ret.
  - apply emits_bind; [apply emits_emit, HP | intros _; exact IH].
Qed.

Lemma keepLoop_emits (P : event -> bool) (this : BranchPruner)
    (mergedBranches acc : list string) :
  (forall c i text, P (Log c i text) = true) ->
  emits P (keepLoop this mergedBranches acc : M W (list string)).
Proof.
  intros HP. revert acc.
  induction mergedBranches as [| b rest IH]; intros acc; cbn [keepLoop].
  - apply emits_ret.
  - destruct (String.eqb b (mainBranch this)); [apply IH |].
    destruct (keepDevelop this && String.eqb b "develop")%bool.
    + apply emits_bind; [apply emits_log, HP | intros _; apply IH].
    + destruct (String.eqb b "HEAD"); apply IH.
Qed.

(** Up to the candidate list, the run neither deletes, prompts nor
    prunes. *)
Lemma findCandidates_harmless (this : BranchPruner) :
  emits (fun ev => negb (isPush ev || isPrompt ev || isPrune ev))
    (findCandidates env this).
Proof.
  unfold findCandidates, checkGitRepository, fetchLatest, checkMainBranch,
    getMergedBranches.
  repeat emits_step.
  - lazymatch goal with
    | |- emits _ (if ?c then _ else _) => destruct c
    end; repeat emits_step.
    now apply printBranches_emits.
  - now apply keepLoop_emits.
Qed.

End Run.

(** ** What a run never does *)

Section Never.

Context {W : Type}.
Variable env : Collaborators W.

Lemma never_app (p : event -> bool) (t1 t2 : list event) :
  never p (t1 ++ t2) = (never p t1 && never p t2)%bool.
Proof. apply forallb_app. Qed.

Lemma never_weaken (p q : event -> bool) (t : list event) :
  (forall ev, q ev = true -> p ev = true) ->
  never p t = true -> never q t = true.
Proof.
  intros Hpq. unfold never. rewrite !forallb_forall. intros H ev Hin.
  specialize (H ev Hin). destruct (q ev) eqn:Eq; [| reflexivity].
  now rewrite (Hpq ev Eq) in H.
Qed.

Lemma harmless_no_push (t : list event) : harmless t = true -> never isPush t = true.
Proof. apply never_weaken. intros ev H. now rewrite H. Qed.

Lemma harmless_no_prompt (t : list event) : harmless t = true -> never isPrompt t = true.
Proof. apply never_weaken. intros ev H. rewrite H. now rewrite orb_true_r. Qed.

Lemma displayLoop_emits (P : event -> bool) (this : BranchPruner)
    (branches : list string) :
  (forall from n, P (GitLog from n) = true) ->
  (forall b, P (Bullet b) = true) ->
  (forall text, P (Print None text) = true) ->
  emits P (displayLoop env this branches).
Proof.
  intros HL HB HP. induction branches as [| b rest IH]; cbn [displayLoop].
  - apply emits_ret.
  - apply emits_bind.
    + unfold getBranchInfo. apply emits_tryCatch.
      * apply emits_bind; [apply emits_await, HL |].
        intros [c |]; apply emits_ret.
      * intros _. apply emits_ret.
    + intros info. apply emits_bind.
      * intros w w' r t H. unfold relativeDateNow in H. now inversion H.
      * intros rel. repeat (apply emits_bind; [apply emits_emit; auto | intros _]).
        exact IH.
Qed.

Lemma deleteLoop_emits (P : event -> bool) (this : BranchPruner)
    (branches : list string) :
  (forall c i text, P (Log c i text) = true) ->
  (forall c text, P (Print c text) = true) ->
  (forall remote b options, P (GitPush remote b options) = true) ->
  forall counts, emits P (deleteLoop env this branches counts).
Proof.
  intros HL HP HG. induction branches as [| b rest IH]; intros counts;
    cbn [deleteLoop].
  - apply emits_ret.
  - apply emits_bind; [| intros c'; apply IH].
    apply emits_tryCatch.
    + apply emits_bind; [apply emits_emit, HP | intros _].
      apply emits_bind; [apply emits_await, HG | intros _].
      apply emits_bind; [apply emits_log, HL | intros _]. apply emits_ret.
    + intros _. apply emits_bind; [apply emits_log, HL | intros _]. apply emits_ret.
Qed.

(** With [dryRun] set, no run contains a delete call, a prompt or a local
    prune, whatever the collaborators answer. *)
Lemma run_dryRun_harmless (this : BranchPruner) :
  dryRun this = true ->
  emits (fun ev => negb (isPush ev || isPrompt ev || isPrune ev)) (run env this).
Proof.
  intros Hdry w w' r t. rewrite run_findCandidates. revert w w' r t.
  apply emits_tryCatch.
  - apply emits_bind; [apply findCandidates_harmless |].
    intros branches. unfold afterCandidates.
    destruct (Nat.eqb (List.length branches) 0); [repeat emits_step |].
    rewrite Hdry. unfold displayBranches. repeat emits_step.
    now apply displayLoop_emits.
  - intros e. unfold runHandler. repeat emits_step.
Qed.

(** With [force] set, no run contains a prompt. *)
Lemma run_force_no_prompt (this : BranchPruner) :
  force this = true ->
  emits (fun ev => negb (isPrompt ev)) (run env this).
Proof.
  intros Hforce w w' r t. rewrite run_findCandidates. revert w w' r t.
  apply emits_tryCatch.
  - apply emits_bind.
    + intros w w' r t H. apply harmless_no_prompt.
      exact (findCandidates_harmless env this _ _ _ _ H).
    + intros branches. unfold afterCandidates.
      destruct (Nat.eqb (List.length branches) 0); [repeat emits_step |].
      unfold displayBranches. apply emits_bind.
      * repeat emits_step. now apply displayLoop_emits.
      * intros _. destruct (dryRun this); [repeat emits_step |].
        unfold confirmDeletion. rewrite Hforce.
        apply emits_bind; [apply emits_ret | intros confirmed].
        destruct (negb confirmed); [repeat emits_step |].
        unfold afterConfirmation, deleteBranches, cleanupLocal,
          getRemainingBranchCount.
        apply emits_bind.
        -- apply emits_bind; [repeat emits_step | intros _].
           now apply deleteLoop_emits.
        -- intros counts. repeat emits_step.
           destruct (0 <? failedCount counts); repeat emits_step.
  - intros e. unfold runHandler. repeat emits_step.
Qed.

End Never.

(** ** Dry run, confirmation and the repository check *)

Section Gates.

Context {W : Type}.
Variable env : Collaborators W.

Lemma afterCandidates_nonempty (this : BranchPruner) (branches : list string) :
  branches <> [] ->
  afterCandidates env this branches
  = (displayBranches env this branches;;
     if dryRun this then
       log yellow magnifier "DRY RUN: The above branches would be deleted from origin";;
       log yellow bulb "Run without --dry-run to actually delete them"
     else
       confirmed <- confirmDeletion env this branches;;
       if negb confirmed then
         log yellow stopButton "Operation cancelled"
       else afterConfirmation env this branches).
Proof.
  intros Hne. unfold afterCandidates.
  destruct branches as [| b rest]; [contradiction | reflexivity].
Qed.

(** C3: in a run with [dryRun] set whose candidate list is not empty, the
    candidates are displayed, the two dry-run notices follow and the run
    returns normally (exit status 0); its trace contains no delete call, no
    prompt and no local prune. *)
Theorem run_dryRun_stops (this : BranchPruner) (w w1 : W)
    (branches : list string) (t1 : list event) :
  dryRun this = true ->
  findCandidates env this w = (Ret branches, w1, t1) ->
  branches <> [] ->
  exists w2 td,
    displayBranches env this branches w1 = (Ret tt, w2, td) /\
    run env this w
    = (Ret tt, w2,
       (t1 ++ td ++
        [Log yellow magnifier "DRY RUN: The above branches would be deleted from origin";
         Log yellow bulb "Run without --dry-run to actually delete them"])%list) /\
    exitStatus (fst (fst (run env this w))) = 0 /\
    harmless (snd (run env this w)) = true.
Proof.
  intros Hdry Hfind Hne.
  destruct (displayBranches_total env this branches w1) as (w2 & td & Hdisp & _).
  exists w2, td. split; [exact Hdisp |].
  assert (Hrun : run env this w
    = (Ret tt, w2,
       (t1 ++ td ++
        [Log yellow magnifier "DRY RUN: The above branches would be deleted from origin";
         Log yellow bulb "Run without --dry-run to actually delete them"])%list)).
  { rewrite (run_from_candidates env this _ _ _ _ Hfind).
    rewrite (afterCandidates_nonempty this branches Hne), Hdry.
    unfold tryCatch. rewrite (bind_returns _ _ _ _ _ _ Hdisp).
    reflexivity. }
  split; [exact Hrun |]. split; [now rewrite Hrun |].
  destruct (run env this w) as [[r w'] t] eqn:E.
  exact (run_dryRun_harmless env this Hdry _ _ _ _ E).
Qed.

(** C4, amended: in a run with [dryRun] unset whose candidate list is not
    empty, the candidates are displayed and then, with [force] unset, a
    question of type confirm whose default is false is put to the user; an
    empty line or a "no" ends the run normally (exit status 0) with the
    notice that the operation is cancelled and without any delete call.
    With [force] set, no prompt occurs and [deleteBranches] runs on the
    candidates right after the display. *)
Theorem run_confirmation_gate (this : BranchPruner) (w w1 : W)
    (branches : list string) (t1 : list event) :
  dryRun this = false ->
  findCandidates env this w = (Ret branches, w1, t1) ->
  branches <> [] ->
  exists wd td,
    displayBranches env this branches w1 = (Ret tt, wd, td) /\
    (force this = false ->
     qtype confirmQuestion = "confirm" /\
     qdefault confirmQuestion = false /\
     (exists r w' tail,
        run env this w
        = (r, w',
           (t1 ++ td ++
            [Print None "";
             Log yellow warning
               "This will permanently delete the above branches from origin!";
             Prompt confirmQuestion] ++ tail)%list)) /\
     (forall (input : option bool) (wp : W),
        readAnswer env wd = (Resolved input, wp) ->
        input = None \/ input = Some false ->
        run env this w
        = (Ret tt, wp,
           (t1 ++ td ++
            [Print None "";
             Log yellow warning
               "This will permanently delete the above branches from origin!";
             Prompt confirmQuestion;
             Log yellow stopButton "Operation cancelled"])%list) /\
        exitStatus (fst (fst (run env this w))) = 0 /\
        never isPush (snd (run env this w)) = true)) /\
    (force this = true ->
     exists counts wdel tdel r w' tail,
       deleteBranches env this branches wd = (Ret counts, wdel, tdel) /\
       deleteCalls tdel = branches /\
       run env this w = (r, w', (t1 ++ td ++ tdel ++ tail)%list) /\
       never isPrompt (snd (run env this w)) = true).
Proof.
  intros Hdry Hfind Hne.
  destruct (displayBranches_total env this branches w1) as (wd & td & Hdisp & Htd).
  exists wd, td. split; [exact Hdisp |].
  assert (Ht1 : harmless t1 = true)
    by exact (findCandidates_harmless env this _ _ _ _ Hfind).
  pose proof (run_from_candidates env this _ _ _ _ Hfind) as Hrun.
  rewrite (afterCandidates_nonempty this branches Hne), Hdry in Hrun.
  rewrite (tryCatch_bind_returns _ _ _ _ _ _ _ Hdisp) in Hrun.
  split.
  - intros Hforce. split; [reflexivity |]. split; [reflexivity |].
    unfold confirmDeletion in Hrun. rewrite Hforce in Hrun. split.
    + rewrite Hrun.
      unfold inquirerPrompt, runHandler, log.
      unfold tryCatch, bind, await, emit, ret, processExit. cbv beta.
      destruct (readAnswer env wd) as [[[[|]|]| e] wp]; cbv beta iota zeta.
      * cbn [negb].
        destruct (afterConfirmation env this branches wp) as [[[[] | e | c] w3] t3];
          eexists _, _, _; cbn [app]; reflexivity.
      * eexists _, _, _; cbn [app negb]; reflexivity.
      * eexists _, _, _; cbn [app negb]; reflexivity.
      * eexists _, _, _; cbn [app]; reflexivity.
    + intros input wp Hans Hno.
      assert (Hfull : run env this w
        = (Ret tt, wp,
           (t1 ++ td ++
            [Print None "";
             Log yellow warning
               "This will permanently delete the above branches from origin!";
             Prompt confirmQuestion;
             Log yellow stopButton "Operation cancelled"])%list)).
      { rewrite Hrun.
        unfold inquirerPrompt, log.
        unfold tryCatch, bind, await, emit, ret. cbv beta.
        rewrite Hans.
        destruct Hno as [-> | ->]; reflexivity. }
      split; [exact Hfull |]. rewrite Hfull. split; [reflexivity |].
      cbn [snd]. rewrite !never_app.
      rewrite (harmless_no_push _ Ht1), (harmless_no_push _ Htd). reflexivity.
  - intros Hforce.
    destruct (deleteBranches_calls_in_order env this branches wd)
      as (counts & wdel & tdel & Hdel & Hcalls).
    unfold confirmDeletion in Hrun. rewrite Hforce in Hrun.
    assert (Hshape : exists r w' tail,
              run env this w = (r, w', (t1 ++ td ++ tdel ++ tail)%list)).
    { rewrite Hrun.
      rewrite (tryCatch_bind_returns (ret true) _ _ wd wd true [] eq_refl).
      cbn [negb]. unfold afterConfirmation.
      rewrite (tryCatch_bind_returns _ _ _ _ _ _ _ Hdel).
      match goal with
      | |- context [tryCatch ?k runHandler wdel] =>
          destruct (tryCatch k runHandler wdel) as [[r w'] tail]
      end.
      exists r, w', tail. reflexivity. }
    destruct Hshape as (r & w' & tail & Hshape).
    exists counts, wdel, tdel, r, w', tail.
    split; [exact Hdel |]. split; [exact Hcalls |]. split; [exact Hshape |].
    destruct (run env this w) as [[r0 w0] t0] eqn:E.
    exact (run_force_no_prompt env this Hforce _ _ _ _ E).
Qed.

End Gates.

Section RepositoryCheck.

Context {W : Type}.
Variable env : Collaborators W.

(** X20: when [checkIsRepo] rejects, the run prints "Error: Not in a git
    repository" and exits with status 1 before anything else is asked of
    git. *)
Lemma run_check_rejected (this : BranchPruner) (w w1 : W) (e : Error) :
  git_checkIsRepo env w = (Rejected e, w1) ->
  run env this w
  = (Exit 1, w1,
     [Log blue rocket "Starting merged branch cleanup...";
      GitCheckIsRepo;
      Log red crossMark "Error: Not in a git repository"]).
Proof.
  intros Hc. rewrite run_unfold.
  rewrite (tryCatch_bind_returns (log _ _ _) _ _ w w tt [_] eq_refl).
  assert (Hcheck : checkGitRepository env this w
                   = (Exit 1, w1,
                      [GitCheckIsRepo;
                       Log red crossMark "Error: Not in a git repository"])).
  { unfold checkGitRepository, log. unfold tryCatch, bind, await, emit, processExit.
    rewrite Hc. reflexivity. }
  rewrite (tryCatch_bind_exits _ _ _ _ _ _ _ Hcheck). reflexivity.
Qed.

(** C6 (as the code behaves on the failing input): when [checkIsRepo]
    resolves to false, the answer is dropped: [checkGitRepository] returns
    normally and the run goes on to fetch from origin. *)
Theorem run_check_false_fetches (this : BranchPruner) (w w1 : W) :
  git_checkIsRepo env w = (Resolved false, w1) ->
  checkGitRepository env this w = (Ret tt, w1, [GitCheckIsRepo]) /\
  (exists r w' tail,
     run env this w
     = (r, w',
        ([Log blue rocket "Starting merged branch cleanup...";
          GitCheckIsRepo;
          Log yellow satellite "Fetching latest changes from origin...";
          GitFetch "origin" ["--prune"]] ++ tail)%list)) /\
  existsb isFetch (snd (run env this w)) = true.
Proof.
  intros Hc.
  assert (Hcheck : checkGitRepository env this w = (Ret tt, w1, [GitCheckIsRepo])).
  { unfold checkGitRepository, log. unfold tryCatch, bind, await, ret.
    rewrite Hc. reflexivity. }
  split; [exact Hcheck |].
  enough (Hshape : exists r w' tail,
     run env this w
     = (r, w',
        ([Log blue rocket "Starting merged branch cleanup...";
          GitCheckIsRepo;
          Log yellow satellite "Fetching latest changes from origin...";
          GitFetch "origin" ["--prune"]] ++ tail)%list)).
  { split; [exact Hshape |].
    destruct Hshape as (r & w' & tail & ->). reflexivity. }
  rewrite run_unfold.
  rewrite (tryCatch_bind_returns (log _ _ _) _ _ w w tt [_] eq_refl).
  rewrite (tryCatch_bind_returns _ _ _ _ _ _ _ Hcheck).
  destruct (git_fetch env "origin" ["--prune"] w1) as [[[] | e] w2] eqn:Hf.
  - assert (Hfetch : fetchLatest env this w1
                     = (Ret tt, w2,
                        [Log yellow satellite "Fetching latest changes from origin...";
                         GitFetch "origin" ["--prune"]])).
    { unfold fetchLatest, log. unfold tryCatch, bind, await, emit.
      rewrite Hf. reflexivity. }
    rewrite (tryCatch_bind_returns _ _ _ _ _ _ _ Hfetch).
    match goal with
    | |- context [tryCatch ?k runHandler w2] =>
        destruct (tryCatch k runHandler w2) as [[r w'] tail]
    end.
    exists r, w', tail. reflexivity.
  - assert (Hfetch : fetchLatest env this w1
                     = (Throw e, w2,
                        [Log yellow satellite "Fetching latest changes from origin...";
                         GitFetch "origin" ["--prune"];
                         Log red crossMark "Error fetching from origin"])).
    { unfold fetchLatest, log. unfold tryCatch, bind, await, emit, throw.
      rewrite Hf. reflexivity. }
    rewrite (tryCatch_bind_throws _ _ _ _ _ _ _ Hfetch).
    destruct (runHandler e w2) as [[r w'] tail].
    eexists r, w', _. reflexivity.
Qed.

End RepositoryCheck.

(** ** The theorems at concrete runs *)

Lemma getMergedBranches_protects_witness :
  git_branch mixedWorld (mergedQuery defaultPruner) 0%nat
    = (Resolved mixedMerged, 1%nat) /\
  exists candidates t,
    getMergedBranches mixedWorld defaultPruner 0%nat = (Ret candidates, 1%nat, t) /\
    ~ In (mainBranch defaultPruner) candidates /\
    ~ In "HEAD" candidates /\
    (keepDevelop defaultPruner = true -> ~ In "develop" candidates).
Proof.
  split; [reflexivity |].
  apply (getMergedBranches_protects mixedWorld defaultPruner 0%nat 1%nat mixedMerged).
  reflexivity.
Defined.

Example getMergedBranches_mixed :
  fst (fst (getMergedBranches mixedWorld defaultPruner 0%nat)) = Ret ["a"] /\
  fst (fst (getMergedBranches mixedWorld noKeepPruner 0%nat)) = Ret ["develop"; "a"].
Proof. split; reflexivity. Qed.

Lemma getMergedBranches_includes_develop_witness :
  git_branch mixedWorld (mergedQuery noKeepPruner) 0%nat
    = (Resolved mixedMerged, 1%nat) /\
  (In "origin/develop" mixedMerged \/ In "develop" mixedMerged) /\
  mainBranch noKeepPruner <> "develop" /\
  keepDevelop noKeepPruner = false /\
  exists candidates t,
    getMergedBranches mixedWorld noKeepPruner 0%nat = (Ret candidates, 1%nat, t) /\
    In "develop" candidates.
Proof.
  split; [reflexivity |].
  split; [left; right; right; left; reflexivity |].
  split; [discriminate |].
  split; [reflexivity |].
  apply (getMergedBranches_includes_develop mixedWorld noKeepPruner 0%nat 1%nat
           mixedMerged).
  - reflexivity.
  - left; right; right; left; reflexivity.
  - discriminate.
  - reflexivity.
Defined.

Lemma getMergedBranches_drops_main_suffix_witness :
  endsWith "origin/foo/origin/main" ("origin/" ++ mainBranch defaultPruner) = true /\
  trim (replace "origin/foo/origin/main" "origin/" "") <> mainBranch defaultPruner /\
  git_branch mixedWorld (mergedQuery defaultPruner) 0%nat
    = (Resolved (["origin/main"; "origin/HEAD"; "origin/develop"; "origin/a"]
                 ++ "origin/foo/origin/main" :: [])%list, 1%nat) /\
  exists candidates t,
    getMergedBranches mixedWorld defaultPruner 0%nat = (Ret candidates, 1%nat, t) /\
    (forall name, In name candidates ->
       exists ref',
         In ref' (["origin/main"; "origin/HEAD"; "origin/develop"; "origin/a"] ++ [])%list /\
         endsWith ref' ("origin/" ++ mainBranch defaultPruner) = false /\
         name = trim (replace ref' "origin/" "")) /\
    (forall (W' : Type) (env' : Collaborators W') (w' w1' : W'),
       git_branch env' (mergedQuery defaultPruner) w'
         = (Resolved (["origin/main"; "origin/HEAD"; "origin/develop"; "origin/a"]
                      ++ [])%list, w1') ->
       getMergedBranches env' defaultPruner w' = (Ret candidates, w1', t)).
Proof.
  split; [reflexivity |].
  split; [discriminate |].
  split; [reflexivity |].
  apply (getMergedBranches_drops_main_suffix mixedWorld defaultPruner 0%nat 1%nat
           ["origin/main"; "origin/HEAD"; "origin/develop"; "origin/a"] []
           "origin/foo/origin/main").
  - reflexivity.
  - reflexivity.
Defined.

Lemma deleteBranches_attempts_all_witness :
  git_push cleanWorld "origin" "a" ["--delete"] 0%nat = (Resolved tt, 1%nat) /\
  git_push cleanWorld "origin" "b" ["--delete"] 1%nat
    = (Rejected (mkError "remote rejected"), 2%nat) /\
  git_push cleanWorld "origin" "c" ["--delete"] 2%nat = (Resolved tt, 3%nat) /\
  exists t,
    deleteBranches cleanWorld forcePruner ["a"; "b"; "c"] 0%nat
    = (Ret {| deletedCount := 2; failedCount := 1 |}, 3%nat, t) /\
    deleteCalls t = ["a"; "b"; "c"] /\
    filter isPush t
    = [GitPush "origin" "a" ["--delete"]; GitPush "origin" "b" ["--delete"];
       GitPush "origin" "c" ["--delete"]].
Proof.
  split; [reflexivity |]. split; [reflexivity |]. split; [reflexivity |].
  exact (proj2 (proj2 (deleteBranches_attempts_all cleanWorld forcePruner))
           "a" "b" "c" 0%nat 1%nat 2%nat 3%nat (mkError "remote rejected")
           eq_refl eq_refl eq_refl).
Defined.

Lemma getBranchInfo_degrades_witness :
  git_log cleanWorld ("origin/" ++ "gone") 1 0%nat
    = (Rejected (mkError "unknown revision"), 1%nat) /\
  exists info,
    getBranchInfo cleanWorld defaultPruner "gone" 0%nat
    = (Ret info, 1%nat, [GitLog ("origin/" ++ "gone") 1]) /\
    Info.hash info = "unknown" /\ Info.message info = "unknown" /\
    Info.author info = "unknown" /\ Info.date info = "unknown".
Proof.
  split; [reflexivity |].
  apply (proj1 (proj2 (getBranchInfo_degrades cleanWorld defaultPruner "gone"))
           0%nat 1%nat (Rejected (mkError "unknown revision"))).
  - reflexivity.
  - right. exists (mkError "unknown revision"). reflexivity.
Defined.

(** The date of the sentinel object is not a date the runtime can read:
    the branch is displayed with "NaN years ago". *)
Example displayBranches_gone :
  displayBranches cleanWorld defaultPruner ["gone"] 0%nat
  = (Ret tt, 1%nat,
     [Log yellow clipboard "Found the following merged branches:";
      GitLog "origin/gone" 1;
      Bullet "gone";
      Print None "    Last commit: unknown unknown";
      Print None "    Author: unknown (NaN years ago)";
      Print None ""]).
Proof. reflexivity. Qed.

Lemma run_dryRun_stops_witness :
  dryRun dryPruner = true /\
  findCandidates cleanWorld dryPruner 0%nat
    = (Ret ["a"; "b"; "c"], 4%nat, snd (findCandidates cleanWorld dryPruner 0%nat)) /\
  ["a"; "b"; "c"] <> [] /\
  exists w2 td,
    displayBranches cleanWorld dryPruner ["a"; "b"; "c"] 4%nat = (Ret tt, w2, td) /\
    run cleanWorld dryPruner 0%nat
    = (Ret tt, w2,
       (snd (findCandidates cleanWorld dryPruner 0%nat) ++ td ++
        [Log yellow magnifier "DRY RUN: The above branches would be deleted from origin";
         Log yellow bulb "Run without --dry-run to actually delete them"])%list) /\
    exitStatus (fst (fst (run cleanWorld dryPruner 0%nat))) = 0 /\
    harmless (snd (run cleanWorld dryPruner 0%nat)) = true.
Proof.
  split; [reflexivity |]. split; [reflexivity |]. split; [discriminate |].
  apply (run_dryRun_stops cleanWorld dryPruner 0%nat 4%nat ["a"; "b"; "c"]
           (snd (findCandidates cleanWorld dryPruner 0%nat))).
  - reflexivity.
  - reflexivity.
  - discriminate.
Defined.

(** C4 as stated fails on a dry run: with [dryRun] set and [force] unset,
    in the sample repository with its three candidates, the run ends
    without any prompt. *)
Lemma prompts_whenever_not_forced_fails : ~ prompts_whenever_not_forced.
Proof.
  intros H.
  specialize (H nat cleanWorld dryPruner 0%nat 4%nat ["a"; "b"; "c"]
                (snd (findCandidates cleanWorld dryPruner 0%nat))
                eq_refl eq_refl).
  assert (Hne : ["a"; "b"; "c"] <> ([] : list string)) by discriminate.
  specialize (H Hne). vm_compute in H. discriminate H.
Qed.

Lemma run_confirmation_gate_witness :
  dryRun defaultPruner = false /\
  findCandidates cleanWorld defaultPruner 0%nat
    = (Ret ["a"; "b"; "c"], 4%nat, snd (findCandidates cleanWorld defaultPruner 0%nat)) /\
  ["a"; "b"; "c"] <> [] /\
  force defaultPruner = false /\
  readAnswer cleanWorld 7%nat = (Resolved None, 8%nat) /\
  run cleanWorld defaultPruner 0%nat
  = (Ret tt, 8%nat,
     (snd (findCandidates cleanWorld defaultPruner 0%nat)
      ++ snd (displayBranches cleanWorld defaultPruner ["a"; "b"; "c"] 4%nat)
      ++ [Print None "";
          Log yellow warning
            "This will permanently delete the above branches from origin!";
          Prompt confirmQuestion;
          Log yellow stopButton "Operation cancelled"])%list) /\
  exitStatus (fst (fst (run cleanWorld defaultPruner 0%nat))) = 0 /\
  never isPush (snd (run cleanWorld defaultPruner 0%nat)) = true.
Proof.
  split; [reflexivity |]. split; [reflexivity |]. split; [discriminate |].
  split; [reflexivity |]. split; [reflexivity |].
  destruct (run_confirmation_gate cleanWorld defaultPruner 0%nat 4%nat
              ["a"; "b"; "c"] (snd (findCandidates cleanWorld defaultPruner 0%nat))
              eq_refl eq_refl)
    as (wd & td & Hdisp & Hgate & _); [discriminate |].
  assert (Hwd : wd = 7%nat) by (vm_compute in Hdisp; congruence).
  assert (Htd : td = snd (displayBranches cleanWorld defaultPruner ["a"; "b"; "c"] 4%nat))
    by (rewrite Hdisp; reflexivity).
  subst wd td.
  destruct (Hgate eq_refl) as (_ & _ & _ & Hno).
  exact (Hno None 8%nat eq_refl (or_introl eq_refl)).
Defined.

(** With [force] set the same repository is cleaned without a prompt. *)
Example run_forced :
  fst (fst (run cleanWorld forcePruner 0%nat)) = Ret tt /\
  deleteCalls (snd (run cleanWorld forcePruner 0%nat)) = ["a"; "b"; "c"] /\
  existsb isPrompt (snd (run cleanWorld forcePruner 0%nat)) = false /\
  existsb isPrune (snd (run cleanWorld forcePruner 0%nat)) = true.
Proof. repeat split; reflexivity. Qed.

Lemma run_check_false_fetches_witness :
  git_checkIsRepo strayWorld 0%nat = (Resolved false, 1%nat) /\
  checkGitRepository strayWorld defaultPruner 0%nat = (Ret tt, 1%nat, [GitCheckIsRepo]) /\
  (exists r w' tail,
     run strayWorld defaultPruner 0%nat
     = (r, w',
        ([Log blue rocket "Starting merged branch cleanup...";
          GitCheckIsRepo;
          Log yellow satellite "Fetching latest changes from origin...";
          GitFetch "origin" ["--prune"]] ++ tail)%list)) /\
  existsb isFetch (snd (run strayWorld defaultPruner 0%nat)) = true.
Proof.
  split; [reflexivity |].
  apply (run_check_false_fetches strayWorld defaultPruner 0%nat 1%nat).
  reflexivity.
Defined.

(** The whole run outside a repository: the fetch is attempted, and it is
    its failure that ends the run. *)
Example run_stray :
  run strayWorld defaultPruner 0%nat
  = (Exit 1, 2%nat,
     [Log blue rocket "Starting merged branch cleanup...";
      GitCheckIsRepo;
      Log yellow satellite "Fetching latest changes from origin...";
      GitFetch "origin" ["--prune"];
      Log red crossMark "Error fetching from origin";
      Log red crossMark "Error: fatal: not a git repository"]).
Proof. reflexivity. Qed.

(** * Further properties of the script *)

(** ** The stages of a run *)

Section Stages.

Context {W : Type}.
Variable env : Collaborators W.

Lemma displayed_app (t1 t2 : list event) :
  displayed (t1 ++ t2) = (displayed t1 ++ displayed t2)%list.
Proof.
  induction t1 as [| ev t IH]; [reflexivity |].
  destruct ev; cbn [app displayed]; rewrite IH; reflexivity.
Qed.

Lemma deleteCalls_app (t1 t2 : list event) :
  deleteCalls (t1 ++ t2) = (deleteCalls t1 ++ deleteCalls t2)%list.
Proof.
  induction t1 as [| ev t IH]; [reflexivity |].
  destruct ev; cbn [app deleteCalls]; rewrite IH; reflexivity.
Qed.

Lemma never_push_deleteCalls (t : list event) :
  never isPush t = true -> deleteCalls t = [].
Proof.
  induction t as [| ev t IH]; [reflexivity |].
  destruct ev; cbn; intros H; try (apply IH; exact H). discriminate.
Qed.

Lemma tryCatch_returns {A : Type} (m : M W A) (h : Error -> M W A)
    (w w1 : W) (a : A) (t : list event) :
  m w = (Ret a, w1, t) -> tryCatch m h w = (Ret a, w1, t).
Proof. intros H. unfold tryCatch. now rewrite H. Qed.

Lemma run_candidates_throw (this : BranchPruner) (w w1 : W) (e : Error)
    (t1 : list event) :
  findCandidates env this w = (Throw e, w1, t1) ->
  run env this w
  = (Exit 1, w1, (t1 ++ [Log red crossMark ("Error: " ++ message e)])%list).
Proof.
  intros H. rewrite run_findCandidates.
  rewrite (tryCatch_bind_throws _ _ _ _ _ _ _ H). reflexivity.
Qed.

Lemma run_candidates_exit (this : BranchPruner) (w w1 : W) (c : Z)
    (t1 : list event) :
  findCandidates env this w = (Exit c, w1, t1) ->
  run env this w = (Exit c, w1, t1).
Proof.
  intros H. rewrite run_findCandidates.
  now rewrite (tryCatch_bind_exits _ _ _ _ _ _ _ H).
Qed.

Lemma printBranches_run (branches : list string) (w : W) :
  printBranches branches w
  = (Ret tt, w, map (fun branch => Print None ("  " ++ branch)) branches).
Proof.
  induction branches as [| b rest IH]; [reflexivity |].
  cbn [printBranches map]. unfold bind, emit. rewrite IH. reflexivity.
Qed.

(** [checkMainBranch] on a listing that resolves. *)
Lemma checkMainBranch_listed (this : BranchPruner) (w w1 : W) (all : list string) :
  git_branch env ["-r"] w = (Resolved all, w1) ->
  checkMainBranch env this w
  = if arrayIncludes all ("origin/" ++ mainBranch this)
    then (Ret tt, w1, [GitBranch ["-r"]])
    else (Exit 1, w1,
          (GitBranch ["-r"]
           :: Log red crossMark
                ("Error: Main branch 'origin/" ++ mainBranch this ++ "' not found")
           :: Log yellow clipboard "Available branches:"
           :: map (fun branch => Print None ("  " ++ branch)) (firstn 10 all))).
Proof.
  intros Hb. unfold checkMainBranch, log.
  unfold tryCatch, bind at 1, await. rewrite Hb.
  destruct (arrayIncludes all ("origin/" ++ mainBranch this)); cbn [negb].
  - reflexivity.
  - unfold bind, emit, processExit. rewrite printBranches_run.
    cbn [app]. now rewrite app_nil_r.
Qed.

Lemma checkGitRepository_resolved (this : BranchPruner) (w w1 : W) (answer : bool) :
  git_checkIsRepo env w = (Resolved answer, w1) ->
  checkGitRepository env this w = (Ret tt, w1, [GitCheckIsRepo]).
Proof.
  intros Hc. unfold checkGitRepository, log. unfold tryCatch, bind, await, ret.
  now rewrite Hc.
Qed.

Lemma fetchLatest_run (this : BranchPruner) (w : W) :
  fetchLatest env this w
  = match git_fetch env "origin" ["--prune"] w with
    | (Resolved _, w1) =>
        (Ret tt, w1,
         [Log yellow satellite "Fetching latest changes from origin...";
          GitFetch "origin" ["--prune"]])
    | (Rejected e, w1) =>
        (Throw e, w1,
         [Log yellow satellite "Fetching latest changes from origin...";
          GitFetch "origin" ["--prune"];
          Log red crossMark "Error fetching from origin"])
    end.
Proof.
  unfold fetchLatest, log. unfold tryCatch, bind, await, emit, throw.
  destruct (git_fetch env "origin" ["--prune"] w) as [[[] | e] w1]; reflexivity.
Qed.

(** [findCandidates] up to the main-branch check, when the first two
    collaborators resolve. *)
Lemma findCandidates_after_fetch (this : BranchPruner) (w w1 w2 : W) (answer : bool) :
  git_checkIsRepo env w = (Resolved answer, w1) ->
  git_fetch env "origin" ["--prune"] w1 = (Resolved tt, w2) ->
  findCandidates env this w
  = let '(r, w3, t3) :=
      (checkMainBranch env this;; getMergedBranches env this) w2 in
    (r, w3,
     (Log blue rocket "Starting merged branch cleanup..."
      :: GitCheckIsRepo
      :: Log yellow satellite "Fetching latest changes from origin..."
      :: GitFetch "origin" ["--prune"] :: t3)).
Proof.
  intros Hc Hf. unfold findCandidates.
  rewrite (bind_returns (log _ _ _) _ w w tt [_] eq_refl).
  rewrite (bind_returns _ _ _ _ _ _ (checkGitRepository_resolved this _ _ _ Hc)).
  assert (Hfetch : fetchLatest env this w1
                   = (Ret tt, w2,
                      [Log yellow satellite "Fetching latest changes from origin...";
                       GitFetch "origin" ["--prune"]]))
    by (rewrite fetchLatest_run, Hf; reflexivity).
  rewrite (bind_returns _ _ _ _ _ _ Hfetch).
  destruct ((checkMainBranch env this;; getMergedBranches env this) w2)
    as [[r w3] t3].
  reflexivity.
Qed.

End Stages.

(** ** Runs that stop before the candidates *)

Section Aborts.

Context {W : Type}.
Variable env : Collaborators W.

Lemma findCandidates_no_bullet (this : BranchPruner) :
  emits (fun ev => negb (isBullet ev)) (findCandidates env this).
Proof.
  unfold findCandidates, checkGitRepository, fetchLatest, checkMainBranch,
    getMergedBranches.
  repeat emits_step.
  - lazymatch goal with
    | |- emits _ (if ?c then _ else _) => destruct c
    end; repeat emits_step.
    now apply printBranches_emits.
  - now apply keepLoop_emits.
Qed.

Lemma never_bullet_displayed (t : list event) :
  never isBullet t = true -> displayed t = [].
Proof.
  induction t as [| ev t IH]; [reflexivity |].
  destruct ev; cbn; intros H; try (apply IH; exact H). discriminate.
Qed.

(** X1: when the fetch from origin rejects, the run prints "Error fetching
    from origin" and then "Error: " followed by the message of the error,
    and exits with status 1; no branch is listed, looked up or deleted. *)
Theorem run_fetch_rejected (this : BranchPruner) (w w1 w2 : W)
    (answer : bool) (e : Error) :
  git_checkIsRepo env w = (Resolved answer, w1) ->
  git_fetch env "origin" ["--prune"] w1 = (Rejected e, w2) ->
  run env this w
  = (Exit 1, w2,
     [Log blue rocket "Starting merged branch cleanup...";
      GitCheckIsRepo;
      Log yellow satellite "Fetching latest changes from origin...";
      GitFetch "origin" ["--prune"];
      Log red crossMark "Error fetching from origin";
      Log red crossMark ("Error: " ++ message e)]).
Proof.
  intros Hc Hf. apply (run_candidates_throw env this w w2 e
    [Log blue rocket "Starting merged branch cleanup...";
     GitCheckIsRepo;
     Log yellow satellite "Fetching latest changes from origin...";
     GitFetch "origin" ["--prune"];
     Log red crossMark "Error fetching from origin"]).
  unfold findCandidates.
  rewrite (bind_returns (log _ _ _) _ w w tt [_] eq_refl).
  rewrite (bind_returns _ _ _ _ _ _ (checkGitRepository_resolved env this _ _ _ Hc)).
  unfold bind. rewrite fetchLatest_run, Hf. reflexivity.
Qed.

(** X2: when the remote listing does not contain "origin/<mainBranch>",
    the run reports it, prints the first ten refs of the listing at most,
    and exits with status 1 right after the listing: the merged-branch
    query is never made. *)
Theorem run_main_branch_missing (this : BranchPruner) (w w1 w2 w3 : W)
    (answer : bool) (all : list string) :
  git_checkIsRepo env w = (Resolved answer, w1) ->
  git_fetch env "origin" ["--prune"] w1 = (Resolved tt, w2) ->
  git_branch env ["-r"] w2 = (Resolved all, w3) ->
  arrayIncludes all ("origin/" ++ mainBranch this) = false ->
  run env this w
  = (Exit 1, w3,
     ([Log blue rocket "Starting merged branch cleanup...";
       GitCheckIsRepo;
       Log yellow satellite "Fetching latest changes from origin...";
       GitFetch "origin" ["--prune"];
       GitBranch ["-r"];
       Log red crossMark
         ("Error: Main branch 'origin/" ++ mainBranch this ++ "' not found");
       Log yellow clipboard "Available branches:"]
      ++ map (fun branch => Print None ("  " ++ branch)) (firstn 10 all))%list) /\
  (List.length (firstn 10 all) <= 10)%nat /\
  filter isBranchQuery (snd (run env this w)) = [GitBranch ["-r"]].
Proof.
  intros Hc Hf Hb Hmiss.
  assert (Hrun : run env this w
    = (Exit 1, w3,
       ([Log blue rocket "Starting merged branch cleanup...";
         GitCheckIsRepo;
         Log yellow satellite "Fetching latest changes from origin...";
         GitFetch "origin" ["--prune"];
         GitBranch ["-r"];
         Log red crossMark
           ("Error: Main branch 'origin/" ++ mainBranch this ++ "' not found");
         Log yellow clipboard "Available branches:"]
        ++ map (fun branch => Print None ("  " ++ branch)) (firstn 10 all))%list)).
  { apply run_candidates_exit.
    rewrite (findCandidates_after_fetch env this _ _ _ _ Hc Hf).
    unfold bind. rewrite (checkMainBranch_listed env this _ _ _ Hb), Hmiss.
    reflexivity. }
  split; [exact Hrun |]. split; [apply firstn_le_length |].
  rewrite Hrun. cbn [snd app filter isBranchQuery]. f_equal. clear Hrun.
  induction (firstn 10 all) as [| b rest IH]; [reflexivity | exact IH].
Qed.

(** X3: an error thrown before the candidate list is known (by the fetch,
    the remote listing or the merged-branch query) ends the run with the
    line "Error: <message>" and exit status 1, and the trace of such a run
    has no delete call, no prompt and no local prune. *)
Theorem run_aborts_on_error (this : BranchPruner) (w w1 : W) (e : Error)
    (t1 : list event) :
  findCandidates env this w = (Throw e, w1, t1) ->
  run env this w
  = (Exit 1, w1, (t1 ++ [Log red crossMark ("Error: " ++ message e)])%list) /\
  exitStatus (fst (fst (run env this w))) = 1 /\
  harmless (snd (run env this w)) = true.
Proof.
  intros H. rewrite (run_candidates_throw env this _ _ _ _ H).
  split; [reflexivity |]. split; [reflexivity |].
  cbn [snd]. unfold harmless. rewrite never_app.
  pose proof (findCandidates_harmless env this _ _ _ _ H) as Ht1.
  unfold never. rewrite Ht1. reflexivity.
Qed.

(** X4: when nothing is merged (the candidate list is empty), the run
    prints "No merged branches found to delete" and returns normally; it
    displays nothing and makes no delete call, prompt or local prune. *)
Theorem run_no_candidates (this : BranchPruner) (w w1 : W) (t1 : list event) :
  findCandidates env this w = (Ret [], w1, t1) ->
  run env this w
  = (Ret tt, w1,
     (t1 ++ [Log green checkMark "No merged branches found to delete"])%list) /\
  harmless (snd (run env this w)) = true /\
  displayed (snd (run env this w)) = [].
Proof.
  intros H.
  assert (Hrun : run env this w
    = (Ret tt, w1,
       (t1 ++ [Log green checkMark "No merged branches found to delete"])%list))
    by (rewrite (run_from_candidates env this _ _ _ _ H); reflexivity).
  rewrite Hrun. split; [reflexivity |]. cbn [snd]. split.
  - unfold harmless. rewrite never_app.
    pose proof (findCandidates_harmless env this _ _ _ _ H) as Ht1.
    unfold never. rewrite Ht1. reflexivity.
  - rewrite displayed_app. cbn [displayed]. rewrite app_nil_r.
    apply never_bullet_displayed.
    exact (findCandidates_no_bullet _ _ _ _ _ H).
Qed.

End Aborts.

(** ** After the confirmation *)

Section Completion.

Context {W : Type}.
Variable env : Collaborators W.

Lemma filter_never (p : event -> bool) (t : list event) :
  never p t = true -> filter p t = [].
Proof.
  induction t as [| ev t IH]; [reflexivity |].
  cbn. destruct (p ev); cbn; [discriminate | exact IH].
Qed.

Lemma cleanupLocal_run (this : BranchPruner) (w : W) :
  cleanupLocal env this w
  = match git_remote env ["prune"; "origin"] w with
    | (Resolved _, w1) =>
        (Ret tt, w1,
         [Log yellow broom "Cleaning up local tracking branches...";
          GitRemote ["prune"; "origin"]])
    | (Rejected _, w1) =>
        (Ret tt, w1,
         [Log yellow broom "Cleaning up local tracking branches...";
          GitRemote ["prune"; "origin"];
          Log yellow warning "Warning: Could not prune local tracking branches"])
    end.
Proof.
  unfold cleanupLocal, log. unfold tryCatch, bind, await, emit.
  destruct (git_remote env ["prune"; "origin"] w) as [[[] | e] w1]; reflexivity.
Qed.

Lemma getRemainingBranchCount_run (this : BranchPruner) (w : W) :
  getRemainingBranchCount env this w
  = match git_branch env ["-r"] w with
    | (Resolved all, w1) =>
        (Ret (inl (Z.of_nat
                     (List.length
                        (filter (fun branch => negb (includes branch " -> ")) all)))),
         w1, [GitBranch ["-r"]])
    | (Rejected _, w1) => (Ret (inr "unknown"), w1, [GitBranch ["-r"]])
    end.
Proof.
  unfold getRemainingBranchCount. unfold tryCatch, bind, await, ret.
  destruct (git_branch env ["-r"] w) as [[all | e] w1]; reflexivity.
Qed.

Lemma deleteBranches_quiet (this : BranchPruner) (branches : list string) (w : W) :
  exists counts w' t,
    deleteBranches env this branches w = (Ret counts, w', t) /\
    deleteCalls t = branches /\
    never isPrompt t = true /\ never isPrune t = true.
Proof.
  rewrite deleteBranches_unfold.
  destruct (deleteLoop_total env this branches
              {| deletedCount := 0; failedCount := 0 |} w)
    as (c' & w' & t & Hrun & Hcalls & _ & _ & _ & Hq).
  rewrite Hrun. exists c', w'. eexists. split; [reflexivity |].
  split; [exact Hcalls |].
  split; cbn [never forallb isPrompt isPrune negb andb].
  - revert Hq. apply never_weaken. intros ev H. now rewrite H.
  - revert Hq. apply never_weaken. intros ev H. rewrite H. apply orb_true_r.
Qed.

(** The lines of the summary, given the counts and the remaining count. *)
Lemma afterConfirmation_returns (this : BranchPruner) (branches : list string) (w : W) :
  exists counts w1 tdel w2 tprune remaining w3,
    deleteBranches env this branches w = (Ret counts, w1, tdel) /\
    cleanupLocal env this w1 = (Ret tt, w2, tprune) /\
    getRemainingBranchCount env this w2 = (Ret remaining, w3, [GitBranch ["-r"]]) /\
    afterConfirmation env this branches w
    = (Ret tt, w3,
       (tdel ++ tprune
        ++ [Print None "";
            Log green party "Cleanup complete!";
            Log green checkMark
              ("Deleted: " ++ showZ (deletedCount counts) ++ " branches")]
        ++ (if 0 <? failedCount counts
            then [Log red crossMark
                    ("Failed: " ++ showZ (failedCount counts) ++ " branches")]
            else [])
        ++ [GitBranch ["-r"];
            Log blue barChart
              ("Remaining remote branches: " ++ showRemaining remaining);
            Log yellow bulb
              "Tip: Run 'git branch -vv' to see if you have any local branches tracking deleted remotes"])%list).
Proof.
  destruct (deleteBranches_quiet this branches w)
    as (counts & w1 & tdel & Hdel & _).
  assert (Hprune : exists w2 tprune, cleanupLocal env this w1 = (Ret tt, w2, tprune)).
  { rewrite cleanupLocal_run.
    destruct (git_remote env ["prune"; "origin"] w1) as [[[] | e] w2];
      eexists _, _; reflexivity. }
  destruct Hprune as (w2 & tprune & Hprune).
  assert (Hrem : exists remaining w3,
             getRemainingBranchCount env this w2
             = (Ret remaining, w3, [GitBranch ["-r"]])).
  { rewrite getRemainingBranchCount_run.
    destruct (git_branch env ["-r"] w2) as [[all | e] w3];
      eexists _, _; reflexivity. }
  destruct Hrem as (remaining & w3 & Hrem).
  exists counts, w1, tdel, w2, tprune, remaining, w3.
  split; [exact Hdel |]. split; [exact Hprune |]. split; [exact Hrem |].
  unfold afterConfirmation.
  rewrite (bind_returns _ _ _ _ _ _ Hdel).
  rewrite (bind_returns _ _ _ _ _ _ Hprune).
  unfold log. unfold bind at 1 2 3. unfold emit at 1 2 3.
  destruct (0 <? failedCount counts).
  - unfold bind at 1. unfold emit at 1.
    rewrite (bind_returns _ _ _ _ _ _ Hrem). unfold bind, emit.
    reflexivity.
  - unfold bind at 1. unfold ret at 1.
    rewrite (bind_returns _ _ _ _ _ _ Hrem). unfold bind, emit.
    reflexivity.
Qed.

End Completion.

Section Outcomes.

Context {W : Type}.
Variable env : Collaborators W.

Lemma confirmDeletion_run (this : BranchPruner) (branches : list string) (w : W) :
  confirmDeletion env this branches w
  = if force this then (Ret true, w, [])
    else
      match readAnswer env w with
      | (Resolved input, wp) =>
          (Ret (match input with Some answer => answer | None => false end), wp,
           [Print None "";
            Log yellow warning
              "This will permanently delete the above branches from origin!";
            Prompt confirmQuestion])
      | (Rejected e, wp) =>
          (Throw e, wp,
           [Print None "";
            Log yellow warning
              "This will permanently delete the above branches from origin!";
            Prompt confirmQuestion])
      end.
Proof.
  unfold confirmDeletion. destruct (force this); [reflexivity |].
  unfold inquirerPrompt, log. unfold bind, await, emit, ret. cbv beta.
  destruct (readAnswer env w) as [[[a |] | e] wp]; reflexivity.
Qed.

Lemma harmless_no_prune (t : list event) : harmless t = true -> never isPrune t = true.
Proof. apply never_weaken. intros ev H. rewrite H. now rewrite !orb_true_r. Qed.

(** The run from a non-empty candidate list on, when it is not a dry
    run. *)
Lemma run_from_display (this : BranchPruner) (w w1 wd : W)
    (branches : list string) (t1 td : list event) :
  dryRun this = false ->
  findCandidates env this w = (Ret branches, w1, t1) ->
  branches <> [] ->
  displayBranches env this branches w1 = (Ret tt, wd, td) ->
  run env this w
  = let '(r, w2, t2) :=
      tryCatch
        (confirmed <- confirmDeletion env this branches;;
         if negb confirmed then log yellow stopButton "Operation cancelled"
         else afterConfirmation env this branches)
        runHandler wd in
    (r, w2, (t1 ++ td ++ t2)%list).
Proof.
  intros Hdry Hfind Hne Hdisp.
  rewrite (run_from_candidates env this _ _ _ _ Hfind).
  rewrite (afterCandidates_nonempty env this branches Hne), Hdry.
  rewrite (tryCatch_bind_returns _ _ _ _ _ _ _ Hdisp).
  match goal with
  | |- context [tryCatch ?k runHandler wd] =>
      destruct (tryCatch k runHandler wd) as [[r w2] t2]
  end.
  reflexivity.
Qed.

(** X5: a failure of the local prune is not fatal: [cleanupLocal] makes
    its one prune call and returns normally in every world; when the call
    rejects, the only effect is the warning line. *)
Theorem cleanupLocal_nonfatal (this : BranchPruner) (w : W) :
  (exists w' t,
     cleanupLocal env this w = (Ret tt, w', t) /\
     filter isCall t = [GitRemote ["prune"; "origin"]]) /\
  (forall (e : Error) (w1 : W),
     git_remote env ["prune"; "origin"] w = (Rejected e, w1) ->
     cleanupLocal env this w
     = (Ret tt, w1,
        [Log yellow broom "Cleaning up local tracking branches...";
         GitRemote ["prune"; "origin"];
         Log yellow warning "Warning: Could not prune local tracking branches"])).
Proof.
  split.
  - rewrite cleanupLocal_run.
    destruct (git_remote env ["prune"; "origin"] w) as [[[] | e] w1];
      eexists _, _; split; reflexivity.
  - intros e w1 H. rewrite cleanupLocal_run, H. reflexivity.
Qed.

(** X6: [getRemainingBranchCount] never raises.  When the listing
    resolves it returns the number of refs that do not contain " -> ",
    which lies between 0 and the length of the listing; when the listing
    rejects it returns the string "unknown", which the summary prints as
    it is. *)
Theorem getRemainingBranchCount_degrades (this : BranchPruner) (w : W) :
  (forall (all : list string) (w1 : W),
     git_branch env ["-r"] w = (Resolved all, w1) ->
     exists n : Z,
       getRemainingBranchCount env this w = (Ret (inl n), w1, [GitBranch ["-r"]]) /\
       n = Z.of_nat
             (List.length (filter (fun ref => negb (includes ref " -> ")) all)) /\
       0 <= n <= Z.of_nat (List.length all)) /\
  (forall (e : Error) (w1 : W),
     git_branch env ["-r"] w = (Rejected e, w1) ->
     getRemainingBranchCount env this w
     = (Ret (inr "unknown"), w1, [GitBranch ["-r"]]) /\
     showRemaining (inr "unknown") = "unknown").
Proof.
  split.
  - intros all w1 H. eexists. rewrite getRemainingBranchCount_run, H.
    split; [reflexivity |]. split; [reflexivity |].
    pose proof (filter_length_le (fun ref => negb (includes ref " -> ")) all).
    lia.
  - intros e w1 H. rewrite getRemainingBranchCount_run, H. split; reflexivity.
Qed.

(** X7: once confirmed, the rest of the run cannot fail: [afterConfirmation]
    returns normally in every world, and its trace is that of
    [deleteBranches], then that of [cleanupLocal], then the summary: an
    empty line, "Cleanup complete!", "Deleted: <deletedCount> branches",
    the line "Failed: <failedCount> branches" exactly when failedCount is
    positive, the listing for the remaining count, the remaining count and
    the tip. *)
Theorem afterConfirmation_summary (this : BranchPruner) (branches : list string) (w : W) :
  exists counts w1 tdel w2 tprune remaining w3,
    deleteBranches env this branches w = (Ret counts, w1, tdel) /\
    cleanupLocal env this w1 = (Ret tt, w2, tprune) /\
    getRemainingBranchCount env this w2 = (Ret remaining, w3, [GitBranch ["-r"]]) /\
    afterConfirmation env this branches w
    = (Ret tt, w3,
       (tdel ++ tprune
        ++ [Print None "";
            Log green party "Cleanup complete!";
            Log green checkMark
              ("Deleted: " ++ showZ (deletedCount counts) ++ " branches")]
        ++ (if 0 <? failedCount counts
            then [Log red crossMark
                    ("Failed: " ++ showZ (failedCount counts) ++ " branches")]
            else [])
        ++ [GitBranch ["-r"];
            Log blue barChart
              ("Remaining remote branches: " ++ showRemaining remaining);
            Log yellow bulb
              "Tip: Run 'git branch -vv' to see if you have any local branches tracking deleted remotes"])%list).
Proof. apply afterConfirmation_returns. Qed.

End Outcomes.

(** ** Deletion needs a yes *)

Section Consent.

Context {W : Type}.
Variable env : Collaborators W.

(** X8: in a run that is not a dry run, once the confirmation is given
    ([confirmDeletion] returns true, by [force] or by a yes), the run
    always returns normally, with exit status 0, whatever deletions,
    prune or final listing fail; it calls delete exactly on the candidates,
    in order, and prunes the local tracking refs exactly once. *)
Theorem run_completes_after_confirmation (this : BranchPruner) (w w1 wd wc : W)
    (branches : list string) (t1 td tc : list event) :
  dryRun this = false ->
  findCandidates env this w = (Ret branches, w1, t1) ->
  branches <> [] ->
  displayBranches env this branches w1 = (Ret tt, wd, td) ->
  confirmDeletion env this branches wd = (Ret true, wc, tc) ->
  fst (fst (run env this w)) = Ret tt /\
  exitStatus (fst (fst (run env this w))) = 0 /\
  deleteCalls (snd (run env this w)) = branches /\
  filter isPrune (snd (run env this w)) = [GitRemote ["prune"; "origin"]].
Proof.
  intros Hdry Hfind Hne Hdisp Hconf.
  pose proof (findCandidates_harmless env this _ _ _ _ Hfind) as Ht1.
  destruct (displayBranches_total env this branches w1) as (wd' & td' & Hdisp' & Htd).
  rewrite Hdisp in Hdisp'. inversion Hdisp'; subst wd' td'. clear Hdisp'.
  assert (Htc : harmless tc = true \/ exists q, tc = [Print None ""; q; Prompt confirmQuestion]
                                               /\ isPush q = false /\ isPrune q = false).
  { rewrite confirmDeletion_run in Hconf. destruct (force this).
    - inversion Hconf. now left.
    - destruct (readAnswer env wd) as [[input | e] wp]; inversion Hconf.
      right. eexists. split; [reflexivity |]. split; reflexivity. }
  assert (Htc_push : deleteCalls tc = [] /\ filter isPrune tc = []).
  { destruct Htc as [Htc | (q & -> & Hq1 & Hq2)].
    - split.
      + now apply never_push_deleteCalls, harmless_no_push.
      + now apply filter_never, harmless_no_prune.
    - split.
      + destruct q; cbn in *; try reflexivity; discriminate.
      + cbn. rewrite Hq2. reflexivity. }
  destruct Htc_push as [Hpush_c Hprune_c].
  destruct (afterConfirmation_returns env this branches wc)
    as (counts & w2 & tdel & w3 & tprune & remaining & w4
        & Hdel & Hclean & Hrem & Hafter).
  destruct (deleteBranches_quiet env this branches wc)
    as (counts' & w2' & tdel' & Hdel' & Hcalls & _ & Hnoprune).
  rewrite Hdel in Hdel'. inversion Hdel'; subst counts' w2' tdel'. clear Hdel'.
  assert (Hclean_t : deleteCalls tprune = [] /\
                     filter isPrune tprune = [GitRemote ["prune"; "origin"]]).
  { rewrite cleanupLocal_run in Hclean.
    destruct (git_remote env ["prune"; "origin"] wc) eqn:E0; clear E0.
    destruct (git_remote env ["prune"; "origin"] w2) as [[[] | e] w3'];
      inversion Hclean; split; reflexivity. }
  destruct Hclean_t as [Hclean_push Hclean_prune].
  rewrite (run_from_display env this _ _ _ _ _ _ Hdry Hfind Hne Hdisp).
  rewrite (tryCatch_bind_returns _ _ _ _ _ _ _ Hconf). cbn [negb].
  rewrite (tryCatch_returns _ _ _ _ _ _ Hafter). cbn [fst snd].
  split; [reflexivity |]. split; [reflexivity |]. split.
  - rewrite !deleteCalls_app.
    rewrite (never_push_deleteCalls _ (harmless_no_push _ Ht1)).
    rewrite (never_push_deleteCalls _ (harmless_no_push _ Htd)).
    rewrite Hpush_c, Hcalls, Hclean_push.
    destruct (0 <? failedCount counts); cbn; now rewrite app_nil_r.
  - rewrite !filter_app.
    rewrite (filter_never _ _ (harmless_no_prune _ Ht1)).
    rewrite (filter_never _ _ (harmless_no_prune _ Htd)).
    rewrite Hprune_c, (filter_never _ _ Hnoprune), Hclean_prune.
    destruct (0 <? failedCount counts); reflexivity.
Qed.

(** X9: when the prompt itself fails (its promise rejects), nothing is
    deleted: the run prints "Error: <message>" after the prompt and exits
    with status 1. *)
Theorem run_prompt_rejected (this : BranchPruner) (w w1 wd wp : W)
    (branches : list string) (t1 td : list event) (e : Error) :
  dryRun this = false ->
  force this = false ->
  findCandidates env this w = (Ret branches, w1, t1) ->
  branches <> [] ->
  displayBranches env this branches w1 = (Ret tt, wd, td) ->
  readAnswer env wd = (Rejected e, wp) ->
  run env this w
  = (Exit 1, wp,
     (t1 ++ td
      ++ [Print None "";
          Log yellow warning
            "This will permanently delete the above branches from origin!";
          Prompt confirmQuestion;
          Log red crossMark ("Error: " ++ message e)])%list) /\
  never isPush (snd (run env this w)) = true.
Proof.
  intros Hdry Hforce Hfind Hne Hdisp Hans.
  pose proof (findCandidates_harmless env this _ _ _ _ Hfind) as Ht1.
  destruct (displayBranches_total env this branches w1) as (wd' & td' & Hdisp' & Htd).
  rewrite Hdisp in Hdisp'. inversion Hdisp'; subst wd' td'. clear Hdisp'.
  assert (Hconf : confirmDeletion env this branches wd
                  = (Throw e, wp,
                     [Print None "";
                      Log yellow warning
                        "This will permanently delete the above branches from origin!";
                      Prompt confirmQuestion]))
    by (rewrite confirmDeletion_run, Hforce, Hans; reflexivity).
  assert (Hrun : run env this w
    = (Exit 1, wp,
       (t1 ++ td
        ++ [Print None "";
            Log yellow warning
              "This will permanently delete the above branches from origin!";
            Prompt confirmQuestion;
            Log red crossMark ("Error: " ++ message e)])%list)).
  { rewrite (run_from_display env this _ _ _ _ _ _ Hdry Hfind Hne Hdisp).
    rewrite (tryCatch_bind_throws _ _ _ _ _ _ _ Hconf). reflexivity. }
  rewrite Hrun. split; [reflexivity |].
  cbn [snd]. rewrite !never_app.
  rewrite (harmless_no_push _ Ht1), (harmless_no_push _ Htd). reflexivity.
Qed.

(** X10: without [force], nothing is deleted unless the user said yes: if
    the trace of a run contains a delete call, then the candidates were
    found and displayed, the prompt was put right after the display, the
    answer read there was an explicit yes, and no delete call precedes the
    prompt. *)
Theorem run_deletes_only_after_yes (this : BranchPruner) (w : W) :
  force this = false ->
  existsb isPush (snd (run env this w)) = true ->
  exists branches w1 t1 wd td wp post,
    findCandidates env this w = (Ret branches, w1, t1) /\
    displayBranches env this branches w1 = (Ret tt, wd, td) /\
    readAnswer env wd = (Resolved (Some true), wp) /\
    snd (run env this w)
    = ((t1 ++ td
        ++ [Print None "";
            Log yellow warning
              "This will permanently delete the above branches from origin!"])
       ++ Prompt confirmQuestion :: post)%list /\
    never isPush
      (t1 ++ td
       ++ [Print None "";
           Log yellow warning
             "This will permanently delete the above branches from origin!"])
    = true.
Proof.
  intros Hforce Hpush.
  assert (Hcontra : forall t, never isPush t = true -> existsb isPush t = true -> False).
  { intros t Hn He. apply existsb_exists in He. destruct He as (ev & Hin & Hev).
    unfold never in Hn. rewrite forallb_forall in Hn. specialize (Hn ev Hin).
    rewrite Hev in Hn. discriminate. }
  destruct (findCandidates env this w) as [[[branches | e | c] w1] t1] eqn:Hfind.
  - pose proof (findCandidates_harmless env this _ _ _ _ Hfind) as Ht1.
    destruct branches as [| b rest].
    + exfalso. apply (Hcontra (snd (run env this w))); [| exact Hpush].
      apply harmless_no_push.
      rewrite (run_from_candidates env this _ _ _ _ Hfind).
      change (harmless (t1 ++ [Log green checkMark "No merged branches found to delete"])
              = true).
      unfold harmless. rewrite never_app. unfold never.
      rewrite Ht1. reflexivity.
    + assert (Hne : b :: rest <> []) by discriminate.
      destruct (displayBranches_total env this (b :: rest) w1)
        as (wd & td & Hdisp & Htd).
      destruct (dryRun this) eqn:Hdry.
      * exfalso. apply (Hcontra (snd (run env this w))); [| exact Hpush].
        apply harmless_no_push.
        destruct (run env this w) as [[r w'] t] eqn:E.
        exact (run_dryRun_harmless env this Hdry _ _ _ _ E).
      * rewrite (run_from_display env this _ _ _ _ _ _ Hdry Hfind Hne Hdisp) in Hpush.
        pose proof (run_from_display env this _ _ _ _ _ _ Hdry Hfind Hne Hdisp) as Hrun.
        pose proof (confirmDeletion_run env this (b :: rest) wd) as Hconf.
        rewrite Hforce in Hconf.
        destruct (readAnswer env wd) as [[[[|] |] | e] wp] eqn:Hans.
        -- (* yes *)
           exists (b :: rest), w1, t1, wd, td, wp.
           rewrite (tryCatch_bind_returns _ _ _ _ _ _ _ Hconf) in Hrun.
           cbn [negb] in Hrun.
           destruct (tryCatch (afterConfirmation env this (b :: rest)) runHandler wp)
             as [[r w2] t2].
           exists t2. split; [reflexivity |]. split; [exact Hdisp |].
           split; [exact Hans |]. split.
           ++ rewrite Hrun. cbn [snd app]. rewrite <- !app_assoc. reflexivity.
           ++ rewrite !never_app.
              rewrite (harmless_no_push _ Ht1), (harmless_no_push _ Htd). reflexivity.
        -- (* no *)
           exfalso. rewrite (tryCatch_bind_returns _ _ _ _ _ _ _ Hconf) in Hpush.
           cbn [negb] in Hpush. revert Hpush. apply Hcontra.
           change (never isPush
                     (t1 ++ td ++
                      [Print None "";
                       Log yellow warning
                         "This will permanently delete the above branches from origin!";
                       Prompt confirmQuestion] ++
                      [Log yellow stopButton "Operation cancelled"]) = true).
           rewrite !never_app.
           rewrite (harmless_no_push _ Ht1), (harmless_no_push _ Htd). reflexivity.
        -- (* empty line *)
           exfalso. rewrite (tryCatch_bind_returns _ _ _ _ _ _ _ Hconf) in Hpush.
           cbn [negb] in Hpush. revert Hpush. apply Hcontra.
           change (never isPush
                     (t1 ++ td ++
                      [Print None "";
                       Log yellow warning
                         "This will permanently delete the above branches from origin!";
                       Prompt confirmQuestion] ++
                      [Log yellow stopButton "Operation cancelled"]) = true).
           rewrite !never_app.
           rewrite (harmless_no_push _ Ht1), (harmless_no_push _ Htd). reflexivity.
        -- (* the prompt fails *)
           exfalso. rewrite (tryCatch_bind_throws _ _ _ _ _ _ _ Hconf) in Hpush.
           revert Hpush. apply Hcontra.
           change (never isPush
                     (t1 ++ td ++
                      [Print None "";
                       Log yellow warning
                         "This will permanently delete the above branches from origin!";
                       Prompt confirmQuestion] ++
                      [Log red crossMark ("Error: " ++ message e)]) = true).
           rewrite !never_app.
           rewrite (harmless_no_push _ Ht1), (harmless_no_push _ Htd). reflexivity.
  - exfalso. apply (Hcontra (snd (run env this w))); [| exact Hpush].
    rewrite (run_candidates_throw env this _ _ _ _ Hfind). cbn [snd].
    rewrite never_app.
    rewrite (harmless_no_push _ (findCandidates_harmless env this _ _ _ _ Hfind)).
    reflexivity.
  - exfalso. apply (Hcontra (snd (run env this w))); [| exact Hpush].
    rewrite (run_candidates_exit env this _ _ _ _ Hfind). cbn [snd].
    exact (harmless_no_push _ (findCandidates_harmless env this _ _ _ _ Hfind)).
Qed.

End Consent.

(** ** How a run can end *)

Section Endings.

Context {W : Type}.
Variable env : Collaborators W.

Lemma exits_ret {A : Type} (a : A) : exitsWithOne (ret a : M W A).
Proof. intros w w' r t c H Hr. subst r. inversion H. Qed.

Lemma exits_throw {A : Type} (e : Error) : exitsWithOne (throw e : M W A).
Proof. intros w w' r t c H Hr. subst r. inversion H. Qed.

Lemma exits_processExit {A : Type} : exitsWithOne (processExit 1 : M W A).
Proof. intros w w' r t c H Hr. subst r. now inversion H. Qed.

Lemma exits_emit (ev : event) : exitsWithOne (emit ev : M W unit).
Proof. intros w w' r t c H Hr. subst r. inversion H. Qed.

Lemma exits_await {A : Type} (ev : event) (op : W -> settled A * W) :
  exitsWithOne (await ev op).
Proof.
  intros w w' r t c H Hr. subst r. unfold await in H.
  destruct (op w) as [[a | e] w1]; inversion H.
Qed.

Lemma exits_bind {A B : Type} (m : M W A) (k : A -> M W B) :
  exitsWithOne m -> (forall a, exitsWithOne (k a)) -> exitsWithOne (bind m k).
Proof.
  intros Hm Hk w w' r t c H Hr. subst r. unfold bind in H.
  destruct (m w) as [[[a | e | c0] w1] t1] eqn:Em.
  - destruct (k a w1) as [[r2 w2] t2] eqn:Ek. inversion H; subst.
    exact (Hk _ _ _ _ _ _ Ek eq_refl).
  - inversion H.
  - inversion H; subst. exact (Hm _ _ _ _ _ Em eq_refl).
Qed.

Lemma exits_tryCatch {A : Type} (m : M W A) (h : Error -> M W A) :
  exitsWithOne m -> (forall e, exitsWithOne (h e)) -> exitsWithOne (tryCatch m h).
Proof.
  intros Hm Hh w w' r t c H Hr. subst r. unfold tryCatch in H.
  destruct (m w) as [[[a | e | c0] w1] t1] eqn:Em.
  - inversion H.
  - destruct (h e w1) as [[r2 w2] t2] eqn:Eh. inversion H; subst.
    exact (Hh _ _ _ _ _ _ Eh eq_refl).
  - inversion H; subst. exact (Hm _ _ _ _ _ Em eq_refl).
Qed.

Lemma exits_returning {A : Type} (m : M W A) :
  (forall w, exists a w' t, m w = (Ret a, w', t)) -> exitsWithOne m.
Proof.
  intros Hm w w' r t c H Hr. subst r. destruct (Hm w) as (a & w1 & t1 & E).
  rewrite E in H. inversion H.
Qed.

Ltac exits_step :=
  first
    [ apply exits_bind; [| intros ?]
    | apply exits_tryCatch; [| intros ?]
    | apply exits_ret | apply exits_throw | apply exits_processExit
    | apply exits_emit | apply exits_await ].

Lemma findCandidates_exits (this : BranchPruner) :
  exitsWithOne (findCandidates env this).
Proof.
  unfold findCandidates, checkGitRepository, fetchLatest, checkMainBranch,
    getMergedBranches, log.
  repeat exits_step.
  - lazymatch goal with
    | |- exitsWithOne (if ?c then _ else _) => destruct c
    end; repeat exits_step.
    apply exits_returning. intros w. rewrite printBranches_run. now eexists _, _, _.
  - apply exits_returning. intros w. rewrite keepLoop_run. now eexists _, _, _.
Qed.

Lemma afterCandidates_exits (this : BranchPruner) (branches : list string) :
  exitsWithOne (afterCandidates env this branches).
Proof.
  unfold afterCandidates, log.
  destruct (Nat.eqb (List.length branches) 0); [repeat exits_step |].
  apply exits_bind.
  - apply exits_returning. intros w.
    destruct (displayBranches_total env this branches w) as (w' & t & H & _).
    now exists tt, w', t.
  - intros _. destruct (dryRun this); [repeat exits_step |].
    apply exits_bind.
    + unfold confirmDeletion, inquirerPrompt, log.
      destruct (force this); repeat exits_step.
      lazymatch goal with
      | |- exitsWithOne (match ?x with _ => _ end) => destruct x
      end; exits_step.
    + intros confirmed. destruct (negb confirmed); [repeat exits_step |].
      apply exits_returning. intros w.
      destruct (afterConfirmation_returns env this branches w)
        as (counts & w1 & tdel & w2 & tprune & remaining & w3 & _ & _ & _ & H).
      rewrite H. now eexists _, _, _.
Qed.

(** X11: no error escapes [run], and the only exit status it sets is 1:
    in every world and for every configuration a run either returns
    normally (the process then ends with status 0) or ends by
    [process.exit(1)]. *)
Theorem run_ends_with_0_or_1 (this : BranchPruner) (w : W) :
  (fst (fst (run env this w)) = Ret tt \/ fst (fst (run env this w)) = Exit 1) /\
  (exitStatus (fst (fst (run env this w))) = 0 \/
   exitStatus (fst (fst (run env this w))) = 1).
Proof.
  assert (H : fst (fst (run env this w)) = Ret tt \/
              fst (fst (run env this w)) = Exit 1).
  { rewrite run_findCandidates. unfold tryCatch.
    destruct ((x <- findCandidates env this;; afterCandidates env this x) w)
      as [[[[] | e | c] w1] t1] eqn:E.
    - now left.
    - right. reflexivity.
    - right. cbn [fst]. f_equal.
      refine (exits_bind _ _ (findCandidates_exits this) _ _ _ _ _ _ E eq_refl).
      intros a. apply afterCandidates_exits. }
  split; [exact H |]. destruct H as [-> | ->]; [now left | now right].
Qed.

End Endings.

(** ** The constructor *)

(** X12: whatever the options, the main branch of a constructed pruner is
    never the empty string: it is the given name, or "main" when the name
    is absent or empty.  [keepDevelop] is off only for an explicit false,
    [dryRun] and [force] are on only for an explicit true. *)
Theorem constructor_defaults (options : Options.t) :
  mainBranch (constructor options) <> "" /\
  (Options.mainBranch options = Some (mainBranch (constructor options)) \/
   (mainBranch (constructor options) = "main" /\
    (Options.mainBranch options = None \/ Options.mainBranch options = Some ""))) /\
  (keepDevelop (constructor options) = false <->
   Options.keepDevelop options = Some false) /\
  (dryRun (constructor options) = true <-> Options.dryRun options = Some true) /\
  (force (constructor options) = true <-> Options.force options = Some true).
Proof.
  destruct options as [[[| c s] |] [[|] |] [[|] |] [[|] |]]; cbn;
    repeat split; try discriminate; try reflexivity;
    try (now left); try (right; split; [reflexivity | now left]);
    try (right; split; [reflexivity | now right]);
    intros H; try discriminate H; reflexivity.
Qed.

(** ** More on the candidates and their display *)

Section Listing.

Context {W : Type}.
Variable env : Collaborators W.

Lemma substring0_length (n : nat) (s : string) :
  String.length (substring0 n s) = Nat.min n (String.length s).
Proof.
  unfold substring0. revert s. induction n as [| n IH]; intros [| c s]; cbn;
    try reflexivity.
  now rewrite IH.
Qed.

Lemma substring0_prefix (n : nat) (s : string) :
  startsWith s (substring0 n s) = true.
Proof.
  unfold substring0. revert s. induction n as [| n IH]; intros [| c s]; cbn;
    try reflexivity.
  now rewrite Ascii.eqb_refl, IH.
Qed.

(** X13: when the commit lookup finds a commit, [getBranchInfo] returns
    its message, author and date unchanged and, as hash, the first seven
    code units of the commit hash (the whole hash when it is shorter). *)
Theorem getBranchInfo_found (this : BranchPruner) (branch : string)
    (w w1 : W) (c : Commit.t) :
  git_log env ("origin/" ++ branch) 1 w = (Resolved (Some c), w1) ->
  exists info,
    getBranchInfo env this branch w
    = (Ret info, w1, [GitLog ("origin/" ++ branch) 1]) /\
    startsWith (Commit.hash c) (Info.hash info) = true /\
    String.length (Info.hash info) = Nat.min 7 (String.length (Commit.hash c)) /\
    Info.message info = Commit.message c /\
    Info.author info = Commit.author_name c /\
    Info.date info = Commit.date c.
Proof.
  intros Hlog. eexists. split.
  - unfold getBranchInfo. unfold tryCatch, bind, await, ret. rewrite Hlog.
    reflexivity.
  - cbn [Info.hash Info.message Info.author Info.date].
    split; [apply substring0_prefix |]. split; [apply substring0_length |].
    repeat split.
Qed.

Lemma mergedNames_symbolic (this : BranchPruner) (ref : string) :
  includes ref " -> " = true -> mergedNames this [ref] = [].
Proof. intros Hi. unfold mergedNames. cbn [filter]. now rewrite Hi. Qed.

(** X14: a symbolic ref of the query result (one that contains " -> ",
    as in "origin/HEAD -> origin/main") is left out: [getMergedBranches]
    returns the list and produces the trace it does in any world whose
    query result is the same list without that ref. *)
Theorem getMergedBranches_drops_symbolic
    (this : BranchPruner) (w w1 : W) (l1 l2 : list string) (ref : string) :
  includes ref " -> " = true ->
  git_branch env (mergedQuery this) w = (Resolved (l1 ++ ref :: l2)%list, w1) ->
  exists candidates t,
    getMergedBranches env this w = (Ret candidates, w1, t) /\
    (forall (W' : Type) (env' : Collaborators W') (w' w1' : W'),
       git_branch env' (mergedQuery this) w' = (Resolved (l1 ++ l2)%list, w1') ->
       getMergedBranches env' this w' = (Ret candidates, w1', t)).
Proof.
  intros Hi Hq. eexists _, _. split; [apply getMergedBranches_resolved, Hq |].
  intros W' env' w' w1' Hq'.
  rewrite (getMergedBranches_resolved env' this _ _ _ Hq').
  change (ref :: l2) with ([ref] ++ l2)%list.
  rewrite !mergedNames_app, (mergedNames_symbolic _ _ Hi). reflexivity.
Qed.

Lemma replace_origin_prefix (name : string) :
  replace ("origin/" ++ name) "origin/" "" = name.
Proof. destruct name; reflexivity. Qed.

Lemma endsWith_refl (s : string) : endsWith s s = true.
Proof. destruct s; cbn [endsWith]; now rewrite String.eqb_refl. Qed.

(** X15: every ordinary merged branch is a candidate: if the query result
    lists "origin/<name>", the ref is not symbolic and does not end with
    "origin/<mainBranch>", [name] has no white space at its ends, is not
    "HEAD" and is not a kept "develop", then [name] is in the list
    [getMergedBranches] returns. *)
Theorem getMergedBranches_keeps_ordinary
    (this : BranchPruner) (w w1 : W) (all : list string) (name : string) :
  git_branch env (mergedQuery this) w = (Resolved all, w1) ->
  In ("origin/" ++ name) all ->
  includes ("origin/" ++ name) " -> " = false ->
  endsWith ("origin/" ++ name) ("origin/" ++ mainBranch this) = false ->
  trim name = name ->
  name <> "HEAD" ->
  (keepDevelop this = true -> name <> "develop") ->
  exists candidates t,
    getMergedBranches env this w = (Ret candidates, w1, t) /\
    In name candidates.
Proof.
  intros Hq Hin Hsym Hend Htrim Hhead Hdev. eexists _, _.
  split; [apply getMergedBranches_resolved, Hq |].
  apply filter_In. split.
  - unfold mergedNames. apply in_map_iff. exists ("origin/" ++ name). split.
    + rewrite replace_origin_prefix. exact Htrim.
    + apply filter_In. split; [apply filter_In; split; [exact Hin |] |].
      * now rewrite Hsym.
      * now rewrite Hend.
  - unfold kept.
    assert (Hmain : String.eqb name (mainBranch this) = false).
    { apply String.eqb_neq. intros ->. now rewrite endsWith_refl in Hend. }
    assert (Hh : String.eqb name "HEAD" = false) by now apply String.eqb_neq.
    rewrite Hmain, Hh. cbn [negb andb]. rewrite andb_true_r.
    destruct (keepDevelop this); [| reflexivity]. cbn [andb].
    apply negb_true_iff, String.eqb_neq. now apply Hdev.
Qed.

Lemma keepTrace_note (this : BranchPruner) (names : list string) :
  In developNote (keepTrace this names) <->
  keepDevelop this = true /\ mainBranch this <> "develop" /\ In "develop" names.
Proof.
  induction names as [| name rest IH]; cbn [keepTrace In].
  - split; [contradiction | now intros (_ & _ & H)].
  - destruct (String.eqb name (mainBranch this)) eqn:Emain; cbn [negb andb].
    + apply String.eqb_eq in Emain. rewrite IH. split.
      * intros (Hk & Hm & Hin). repeat split; auto.
      * intros (Hk & Hm & [Hn | Hin]); [| now repeat split].
        exfalso. apply Hm. congruence.
    + destruct (keepDevelop this) eqn:Ekeep; cbn [andb].
      * destruct (String.eqb name "develop") eqn:Edev.
        -- apply String.eqb_eq in Edev. subst name. apply String.eqb_neq in Emain.
           split; [| intros _; now left].
           intros _. repeat split; [congruence | now left].
        -- cbn [In]. rewrite IH. apply String.eqb_neq in Edev. split.
           ++ intros (Hk & Hm & Hin). repeat split; auto.
           ++ intros (Hk & Hm & [Hn | Hin]); [contradiction | now repeat split].
      * rewrite IH. split; intros (Hk & _); discriminate Hk.
Qed.

(** X16: the note "Keeping 'develop' branch ..." is printed by
    [getMergedBranches] exactly when [keepDevelop] is set, the main branch
    is not "develop" and "develop" is among the names of the merged
    refs. *)
Theorem getMergedBranches_develop_note
    (this : BranchPruner) (w w1 : W) (all : list string) :
  git_branch env (mergedQuery this) w = (Resolved all, w1) ->
  (In developNote (snd (getMergedBranches env this w)) <->
   keepDevelop this = true /\ mainBranch this <> "develop" /\
   In "develop" (mergedNames this all)).
Proof.
  intros Hq. rewrite (getMergedBranches_resolved env this _ _ _ Hq). cbn [snd].
  rewrite <- keepTrace_note. cbn [In]. split.
  - intros [H | [H | H]]; [discriminate H | discriminate H | exact H].
  - intros H. now right; right.
Qed.

Lemma deleteLoop_lines (this : BranchPruner) (branches : list string) :
  forall (counts : DeleteResult) (w : W),
  exists counts' w' t,
    deleteLoop env this branches counts w = (Ret counts', w', t) /\
    deletedCount counts'
      = deletedCount counts + Z.of_nat (List.length (filter isDeletedLine t)) /\
    failedCount counts'
      = failedCount counts + Z.of_nat (List.length (filter isFailedLine t)).
Proof.
  induction branches as [| branch rest IH]; intros counts w.
  - exists counts, w, []. cbn. repeat split; lia.
  - destruct (git_push env "origin" branch ["--delete"] w) as [[[] | e] w1] eqn:Hp.
    + rewrite (deleteLoop_deleted env _ _ _ _ _ _ Hp).
      destruct (IH {| deletedCount := deletedCount counts + 1;
                      failedCount := failedCount counts |} w1)
        as (c' & w' & t & Hrun & Hd & Hf).
      rewrite Hrun. exists c', w'. eexists. split; [reflexivity |].
      cbn [filter isDeletedLine isFailedLine List.length deletedCount failedCount] in *.
      split; lia.
    + rewrite (deleteLoop_failed env _ _ _ _ _ _ _ Hp).
      destruct (IH {| deletedCount := deletedCount counts;
                      failedCount := failedCount counts + 1 |} w1)
        as (c' & w' & t & Hrun & Hd & Hf).
      rewrite Hrun. exists c', w'. eexists. split; [reflexivity |].
      cbn [filter isDeletedLine isFailedLine List.length deletedCount failedCount] in *.
      split; lia.
Qed.

(** X17: the counts [deleteBranches] returns agree with what it printed:
    [deletedCount] is the number of its green "Deleted origin/..." lines
    and [failedCount] the number of its red "Failed to delete origin/..."
    lines. *)
Theorem deleteBranches_lines_match_counts
    (this : BranchPruner) (branches : list string) (w : W) :
  exists counts w' t,
    deleteBranches env this branches w = (Ret counts, w', t) /\
    deletedCount counts = Z.of_nat (List.length (filter isDeletedLine t)) /\
    failedCount counts = Z.of_nat (List.length (filter isFailedLine t)).
Proof.
  rewrite deleteBranches_unfold.
  destruct (deleteLoop_lines this branches {| deletedCount := 0; failedCount := 0 |} w)
    as (c' & w' & t & Hrun & Hd & Hf).
  rewrite Hrun. exists c', w'. eexists. split; [reflexivity |].
  cbn [filter isDeletedLine isFailedLine deletedCount failedCount] in *.
  split; lia.
Qed.

End Listing.


(** ** The further properties at concrete runs *)

Lemma run_fetch_rejected_witness :
  git_checkIsRepo strayWorld 0%nat = (Resolved false, 1%nat) /\
  git_fetch strayWorld "origin" ["--prune"] 1%nat
    = (Rejected (mkError "fatal: not a git repository"), 2%nat) /\
  run strayWorld defaultPruner 0%nat
  = (Exit 1, 2%nat,
     [Log blue rocket "Starting merged branch cleanup...";
      GitCheckIsRepo;
      Log yellow satellite "Fetching latest changes from origin...";
      GitFetch "origin" ["--prune"];
      Log red crossMark "Error fetching from origin";
      Log red crossMark ("Error: " ++ message (mkError "fatal: not a git repository"))]).
Proof.
  split; [reflexivity |]. split; [reflexivity |].
  apply (run_fetch_rejected strayWorld defaultPruner 0%nat 1%nat 2%nat false
           (mkError "fatal: not a git repository")); reflexivity.
Defined.

Lemma run_main_branch_missing_witness :
  git_checkIsRepo cleanWorld 0%nat = (Resolved true, 1%nat) /\
  git_fetch cleanWorld "origin" ["--prune"] 1%nat = (Resolved tt, 2%nat) /\
  git_branch cleanWorld ["-r"] 2%nat = (Resolved ("origin/main" :: threeMerged), 3%nat) /\
  arrayIncludes ("origin/main" :: threeMerged) ("origin/" ++ mainBranch masterPruner)
    = false /\
  run cleanWorld masterPruner 0%nat
  = (Exit 1, 3%nat,
     ([Log blue rocket "Starting merged branch cleanup...";
       GitCheckIsRepo;
       Log yellow satellite "Fetching latest changes from origin...";
       GitFetch "origin" ["--prune"];
       GitBranch ["-r"];
       Log red crossMark
         ("Error: Main branch 'origin/" ++ mainBranch masterPruner ++ "' not found");
       Log yellow clipboard "Available branches:"]
      ++ map (fun branch => Print None ("  " ++ branch))
           (firstn 10 ("origin/main" :: threeMerged)))%list) /\
  (List.length (firstn 10 ("origin/main" :: threeMerged)) <= 10)%nat /\
  filter isBranchQuery (snd (run cleanWorld masterPruner 0%nat)) = [GitBranch ["-r"]].
Proof.
  split; [reflexivity |]. split; [reflexivity |]. split; [reflexivity |].
  split; [reflexivity |].
  apply (run_main_branch_missing cleanWorld masterPruner 0%nat 1%nat 2%nat 3%nat true
           ("origin/main" :: threeMerged)); reflexivity.
Defined.

Lemma run_aborts_on_error_witness :
  findCandidates querylessWorld defaultPruner 0%nat
    = (Throw (mkError "malformed object name"), 4%nat,
       snd (findCandidates querylessWorld defaultPruner 0%nat)) /\
  run querylessWorld defaultPruner 0%nat
  = (Exit 1, 4%nat,
     (snd (findCandidates querylessWorld defaultPruner 0%nat)
      ++ [Log red crossMark ("Error: " ++ message (mkError "malformed object name"))])%list) /\
  exitStatus (fst (fst (run querylessWorld defaultPruner 0%nat))) = 1 /\
  harmless (snd (run querylessWorld defaultPruner 0%nat)) = true.
Proof.
  split; [reflexivity |].
  apply (run_aborts_on_error querylessWorld defaultPruner 0%nat 4%nat
           (mkError "malformed object name")
           (snd (findCandidates querylessWorld defaultPruner 0%nat))).
  reflexivity.
Defined.

Lemma run_no_candidates_witness :
  findCandidates tidyWorld defaultPruner 0%nat
    = (Ret [], 4%nat, snd (findCandidates tidyWorld defaultPruner 0%nat)) /\
  run tidyWorld defaultPruner 0%nat
  = (Ret tt, 4%nat,
     (snd (findCandidates tidyWorld defaultPruner 0%nat)
      ++ [Log green checkMark "No merged branches found to delete"])%list) /\
  harmless (snd (run tidyWorld defaultPruner 0%nat)) = true /\
  displayed (snd (run tidyWorld defaultPruner 0%nat)) = [].
Proof.
  split; [reflexivity |].
  apply (run_no_candidates tidyWorld defaultPruner 0%nat 4%nat
           (snd (findCandidates tidyWorld defaultPruner 0%nat))).
  reflexivity.
Defined.

Lemma cleanupLocal_nonfatal_witness :
  git_remote prunelessWorld ["prune"; "origin"] 0%nat
    = (Rejected (mkError "prune failed"), 1%nat) /\
  cleanupLocal prunelessWorld defaultPruner 0%nat
  = (Ret tt, 1%nat,
     [Log yellow broom "Cleaning up local tracking branches...";
      GitRemote ["prune"; "origin"];
      Log yellow warning "Warning: Could not prune local tracking branches"]).
Proof.
  split; [reflexivity |].
  apply (proj2 (cleanupLocal_nonfatal prunelessWorld defaultPruner 0%nat)
           (mkError "prune failed") 1%nat).
  reflexivity.
Defined.

Lemma getRemainingBranchCount_degrades_witness :
  git_branch symbolicWorld ["-r"] 0%nat
    = (Resolved ["origin/main"; "origin/HEAD -> origin/main"; "origin/a"], 1%nat) /\
  exists n : Z,
    getRemainingBranchCount symbolicWorld defaultPruner 0%nat
    = (Ret (inl n), 1%nat, [GitBranch ["-r"]]) /\
    n = Z.of_nat
          (List.length
             (filter (fun ref => negb (includes ref " -> "))
                ["origin/main"; "origin/HEAD -> origin/main"; "origin/a"])) /\
    0 <= n <= Z.of_nat
               (List.length ["origin/main"; "origin/HEAD -> origin/main"; "origin/a"]).
Proof.
  split; [reflexivity |].
  apply (proj1 (getRemainingBranchCount_degrades symbolicWorld defaultPruner 0%nat)
           ["origin/main"; "origin/HEAD -> origin/main"; "origin/a"] 1%nat).
  reflexivity.
Defined.

Lemma run_completes_after_confirmation_witness :
  dryRun forcePruner = false /\
  findCandidates cleanWorld forcePruner 0%nat
    = (Ret ["a"; "b"; "c"], 4%nat, snd (findCandidates cleanWorld forcePruner 0%nat)) /\
  ["a"; "b"; "c"] <> [] /\
  displayBranches cleanWorld forcePruner ["a"; "b"; "c"] 4%nat
    = (Ret tt, 7%nat, snd (displayBranches cleanWorld forcePruner ["a"; "b"; "c"] 4%nat)) /\
  confirmDeletion cleanWorld forcePruner ["a"; "b"; "c"] 7%nat = (Ret true, 7%nat, []) /\
  fst (fst (run cleanWorld forcePruner 0%nat)) = Ret tt /\
  exitStatus (fst (fst (run cleanWorld forcePruner 0%nat))) = 0 /\
  deleteCalls (snd (run cleanWorld forcePruner 0%nat)) = ["a"; "b"; "c"] /\
  filter isPrune (snd (run cleanWorld forcePruner 0%nat)) = [GitRemote ["prune"; "origin"]].
Proof.
  split; [reflexivity |]. split; [reflexivity |]. split; [discriminate |].
  split; [reflexivity |]. split; [reflexivity |].
  apply (run_completes_after_confirmation cleanWorld forcePruner 0%nat 4%nat 7%nat 7%nat
           ["a"; "b"; "c"]
           (snd (findCandidates cleanWorld forcePruner 0%nat))
           (snd (displayBranches cleanWorld forcePruner ["a"; "b"; "c"] 4%nat)) []);
    try reflexivity.
  discriminate.
Defined.

Lemma run_prompt_rejected_witness :
  dryRun defaultPruner = false /\
  force defaultPruner = false /\
  findCandidates promptlessWorld defaultPruner 0%nat
    = (Ret ["a"; "b"; "c"], 4%nat, snd (findCandidates promptlessWorld defaultPruner 0%nat)) /\
  ["a"; "b"; "c"] <> [] /\
  displayBranches promptlessWorld defaultPruner ["a"; "b"; "c"] 4%nat
    = (Ret tt, 7%nat,
       snd (displayBranches promptlessWorld defaultPruner ["a"; "b"; "c"] 4%nat)) /\
  readAnswer promptlessWorld 7%nat = (Rejected (mkError "prompt closed"), 8%nat) /\
  run promptlessWorld defaultPruner 0%nat
  = (Exit 1, 8%nat,
     (snd (findCandidates promptlessWorld defaultPruner 0%nat)
      ++ snd (displayBranches promptlessWorld defaultPruner ["a"; "b"; "c"] 4%nat)
      ++ [Print None "";
          Log yellow warning
            "This will permanently delete the above branches from origin!";
          Prompt confirmQuestion;
          Log red crossMark ("Error: " ++ message (mkError "prompt closed"))])%list) /\
  never isPush (snd (run promptlessWorld defaultPruner 0%nat)) = true.
Proof.
  split; [reflexivity |]. split; [reflexivity |]. split; [reflexivity |].
  split; [discriminate |]. split; [reflexivity |]. split; [reflexivity |].
  apply (run_prompt_rejected promptlessWorld defaultPruner 0%nat 4%nat 7%nat 8%nat
           ["a"; "b"; "c"]
           (snd (findCandidates promptlessWorld defaultPruner 0%nat))
           (snd (displayBranches promptlessWorld defaultPruner ["a"; "b"; "c"] 4%nat))
           (mkError "prompt closed"));
    try reflexivity.
  discriminate.
Defined.

Lemma run_deletes_only_after_yes_witness :
  force defaultPruner = false /\
  existsb isPush (snd (run yesWorld defaultPruner 0%nat)) = true /\
  exists branches w1 t1 wd td wp post,
    findCandidates yesWorld defaultPruner 0%nat = (Ret branches, w1, t1) /\
    displayBranches yesWorld defaultPruner branches w1 = (Ret tt, wd, td) /\
    readAnswer yesWorld wd = (Resolved (Some true), wp) /\
    snd (run yesWorld defaultPruner 0%nat)
    = ((t1 ++ td
        ++ [Print None "";
            Log yellow warning
              "This will permanently delete the above branches from origin!"])
       ++ Prompt confirmQuestion :: post)%list /\
    never isPush
      (t1 ++ td
       ++ [Print None "";
           Log yellow warning
             "This will permanently delete the above branches from origin!"])
    = true.
Proof.
  split; [reflexivity |]. split; [reflexivity |].
  apply (run_deletes_only_after_yes yesWorld defaultPruner 0%nat); reflexivity.
Defined.

Lemma getBranchInfo_found_witness :
  git_log cleanWorld ("origin/" ++ "a") 1 0%nat = (Resolved (Some sampleCommit), 1%nat) /\
  exists info,
    getBranchInfo cleanWorld defaultPruner "a" 0%nat
    = (Ret info, 1%nat, [GitLog ("origin/" ++ "a") 1]) /\
    startsWith (Commit.hash sampleCommit) (Info.hash info) = true /\
    String.length (Info.hash info)
    = Nat.min 7 (String.length (Commit.hash sampleCommit)) /\
    Info.message info = Commit.message sampleCommit /\
    Info.author info = Commit.author_name sampleCommit /\
    Info.date info = Commit.date sampleCommit.
Proof.
  split; [reflexivity |].
  apply (getBranchInfo_found cleanWorld defaultPruner "a" 0%nat 1%nat sampleCommit).
  reflexivity.
Defined.

Lemma getMergedBranches_drops_symbolic_witness :
  includes "origin/HEAD -> origin/main" " -> " = true /\
  git_branch symbolicWorld (mergedQuery defaultPruner) 0%nat
    = (Resolved ([] ++ "origin/HEAD -> origin/main" :: ["origin/a"])%list, 1%nat) /\
  exists candidates t,
    getMergedBranches symbolicWorld defaultPruner 0%nat = (Ret candidates, 1%nat, t) /\
    (forall (W' : Type) (env' : Collaborators W') (w' w1' : W'),
       git_branch env' (mergedQuery defaultPruner) w'
         = (Resolved ([] ++ ["origin/a"])%list, w1') ->
       getMergedBranches env' defaultPruner w' = (Ret candidates, w1', t)).
Proof.
  split; [reflexivity |]. split; [reflexivity |].
  apply (getMergedBranches_drops_symbolic symbolicWorld defaultPruner 0%nat 1%nat
           [] ["origin/a"] "origin/HEAD -> origin/main"); reflexivity.
Defined.

Lemma getMergedBranches_keeps_ordinary_witness :
  git_branch cleanWorld (mergedQuery defaultPruner) 0%nat = (Resolved threeMerged, 1%nat) /\
  In ("origin/" ++ "a") threeMerged /\
  includes ("origin/" ++ "a") " -> " = false /\
  endsWith ("origin/" ++ "a") ("origin/" ++ mainBranch defaultPruner) = false /\
  trim "a" = "a" /\
  "a" <> "HEAD" /\
  (keepDevelop defaultPruner = true -> "a" <> "develop") /\
  exists candidates t,
    getMergedBranches cleanWorld defaultPruner 0%nat = (Ret candidates, 1%nat, t) /\
    In "a" candidates.
Proof.
  split; [reflexivity |]. split; [right; left; reflexivity |].
  split; [reflexivity |]. split; [reflexivity |]. split; [reflexivity |].
  split; [discriminate |]. split; [intros _; discriminate |].
  apply (getMergedBranches_keeps_ordinary cleanWorld defaultPruner 0%nat 1%nat
           threeMerged "a"); try reflexivity.
  - right; left; reflexivity.
  - discriminate.
  - intros _; discriminate.
Defined.

Lemma getMergedBranches_develop_note_witness :
  git_branch mixedWorld (mergedQuery defaultPruner) 0%nat = (Resolved mixedMerged, 1%nat) /\
  (In developNote (snd (getMergedBranches mixedWorld defaultPruner 0%nat)) <->
   keepDevelop defaultPruner = true /\ mainBranch defaultPruner <> "develop" /\
   In "develop" (mergedNames defaultPruner mixedMerged)) /\
  In developNote (snd (getMergedBranches mixedWorld defaultPruner 0%nat)).
Proof.
  split; [reflexivity |].
  pose proof (getMergedBranches_develop_note mixedWorld defaultPruner 0%nat 1%nat
                mixedMerged eq_refl) as H.
  split; [exact H |].
  apply H. split; [reflexivity |]. split; [discriminate |].
  right; left; reflexivity.
Defined.


Example getRelativeDate_future_example :
  getRelativeDate (parseAs (3 * msPerDay)) 0 "2024-01-04" = "-3 days ago".
Proof. reflexivity. Qed.


Lemma run_check_rejected_witness :
  git_checkIsRepo brokenWorld 0%nat = (Rejected (mkError "spawn git ENOENT"), 1%nat) /\
  run brokenWorld defaultPruner 0%nat
  = (Exit 1, 1%nat,
     [Log blue rocket "Starting merged branch cleanup...";
      GitCheckIsRepo;
      Log red crossMark "Error: Not in a git repository"]).
Proof.
  split; [reflexivity |].
  apply (run_check_rejected brokenWorld defaultPruner 0%nat 1%nat
           (mkError "spawn git ENOENT")).
  reflexivity.
Defined.

Lemma getMergedBranches_rejected_witness :
  git_branch querylessWorld (mergedQuery defaultPruner) 0%nat
    = (Rejected (mkError "malformed object name"), 1%nat) /\
  getMergedBranches querylessWorld defaultPruner 0%nat
  = (Throw (mkError "malformed object name"), 1%nat,
     [Log yellow magnifier "Finding merged branches...";
      GitBranch (mergedQuery defaultPruner);
      Log red crossMark "Error finding merged branches"]).
Proof.
  split; [reflexivity |].
  apply (getMergedBranches_rejected querylessWorld defaultPruner 0%nat 1%nat
           (mkError "malformed object name")).
  reflexivity.
Defined.

Lemma displayBranches_displayed_witness :
  displayBranches cleanWorld defaultPruner ["a"; "gone"; "c"] 0%nat
    = (Ret tt, 3%nat,
       snd (displayBranches cleanWorld defaultPruner ["a"; "gone"; "c"] 0%nat)) /\
  displayed (snd (displayBranches cleanWorld defaultPruner ["a"; "gone"; "c"] 0%nat))
  = ["a"; "gone"; "c"].
Proof.
  split; [reflexivity |].
  apply (displayBranches_displayed cleanWorld defaultPruner ["a"; "gone"; "c"]
           0%nat 3%nat (Ret tt)
           (snd (displayBranches cleanWorld defaultPruner ["a"; "gone"; "c"] 0%nat))).
  reflexivity.
Defined.
